(** * Screenshot matching scripts: a shallow embedding and its properties

    The two scripts under [notion/qa] are embedded function by function:
    [match-screenshot.py] (module [MatchScreenshot]) and [smart-capture.py]
    (module [SmartCapture]).

    - Python floats are IEEE binary64 values, modelled with the Standard
      Library's [spec_float] at precision 53 and maximal exponent 1024, so
      [int (tmpl_w * 0.9)] is computed with its rounding, not over the reals.
    - A decoded image is a shape (height, width) and a pixel function.
    - The file system and the network are explicit state (a [world]); a
      Python exception is the [Raise] outcome of a small error monad.
    - OpenCV is not part of the repository.  What its calls compute on pixel
      values (interpolation, luminance, edge detection, correlation peak),
      and what [cv2.imwrite] depends on outside the program (an encoder for
      the file name, a path that can be written, the pixels a format
      keeps), are the fields of a class [OpenCV]; the shapes the calls
      return and the argument checks that make them raise are written
      out. *)

From Stdlib Require Import ZArith String List Bool Lia.
From Stdlib Require Import SpecFloat.
From stdpp Require Import base option gmap strings.

Open Scope string_scope.
Open Scope Z_scope.

(** ** Python numbers *)

Module Py64.

Definition prec : Z := 53.
Definition emax : Z := 1024.

Definition float : Type := spec_float.

(** [float(n)] for a Python int, rounded to nearest even. *)
Definition of_int (n : Z) : float := binary_normalize prec emax n 0 false.

Definition mul : float -> float -> float := SFmul prec emax.
Definition div : float -> float -> float := SFdiv prec emax.
Definition ltb : float -> float -> bool := SFltb.
Definition leb : float -> float -> bool := SFleb.

(** The float a decimal literal [n/d] denotes: the binary64 value nearest
    to the quotient, which is what a correctly rounded division gives. *)
Definition lit (n d : Z) : float := div (of_int n) (of_int d).

Definition is_nan (f : float) : bool :=
  match f with S754_nan => true | _ => false end.

Definition is_zero (f : float) : bool :=
  match f with S754_zero _ => true | _ => false end.

(** The integer part, towards zero; [None] where Python's [int] raises. *)
Definition trunc (f : float) : option Z :=
  match f with
  | S754_zero _ => Some 0
  | S754_finite s m e => Some (cond_Zopp s (Z.shiftl (Z.pos m) e))
  | S754_infinity _ | S754_nan => None
  end.

End Py64.

Abbreviation float := Py64.float.

(** A Python number that is either an [int] or a [float]: [best_val] starts
    as the int [-1] and later holds correlation scores. *)
Inductive num :=
  | NInt (z : Z)
  | NFloat (f : float).

Definition num_float (n : num) : float :=
  match n with
  | NInt z => Py64.of_int z
  | NFloat f => f
  end.

(** [bool(n)]: zero of either kind is falsy, everything else (NaN too) truthy. *)
Definition num_truthy (n : num) : bool :=
  match n with
  | NInt z => negb (z =? 0)
  | NFloat f => negb (Py64.is_zero f)
  end.

(** ** JSON-like values and dicts (insertion ordered, as Python's) *)

#[warnings="-register-all"]
Inductive value :=
  | VBool (b : bool)
  | VInt (z : Z)
  | VFloat (f : float)
  | VStr (s : string)
  | VDict (d : list (string * value)).

Definition dict : Type := list (string * value).

Definition value_of_num (n : num) : value :=
  match n with
  | NInt z => VInt z
  | NFloat f => VFloat f
  end.

Fixpoint dict_get (d : dict) (k : string) : option value :=
  match d with
  | [] => None
  | (k', v) :: d' => if String.eqb k' k then Some v else dict_get d' k
  end.

(** [d[k] = v]: overwrite in place, or append a new key. *)
Fixpoint dict_set (d : dict) (k : string) (v : value) : dict :=
  match d with
  | [] => [(k, v)]
  | (k', v') :: d' =>
      if String.eqb k' k then (k', v) :: d' else (k', v') :: dict_set d' k v
  end.

Definition dict_has (d : dict) (k : string) : bool :=
  match dict_get d k with Some _ => true | None => false end.

(** [a / b] on numpy integers: IEEE division of the two as float64, which
    yields an infinity or NaN on a zero divisor instead of raising. *)
Definition np_truediv (a b : Z) : float :=
  Py64.div (Py64.of_int a) (Py64.of_int b).

(** ** Images *)

Record image (A : Type) := Image {
  height : Z;
  width : Z;
  px : Z -> Z -> A  (* row, then column *)
}.
Arguments Image {A} _ _ _.
Arguments height {A} _.
Arguments width {A} _.
Arguments px {A} _ _ _.

Definition bgr : Type := (Z * Z * Z)%type.

Definition is_empty {A} (img : image A) : bool :=
  (height img <=? 0) || (width img <=? 0).

(** [img.shape[:2]] *)
Definition shape {A} (img : image A) : Z * Z := (height img, width img).

(** numpy's treatment of one bound of a slice over an axis of length [len]. *)
Definition slice_bound (i len : Z) : Z :=
  Z.max 0 (Z.min (if i <? 0 then i + len else i) len).

(** [img[y0:y1, x0:x1]] *)
Definition crop {A} (img : image A) (y0 y1 x0 x1 : Z) : image A :=
  let ys := slice_bound y0 (height img) in
  let ye := slice_bound y1 (height img) in
  let xs := slice_bound x0 (width img) in
  let xe := slice_bound x1 (width img) in
  Image (Z.max 0 (ye - ys)) (Z.max 0 (xe - xs))
        (fun y x => px img (ys + y) (xs + x)).

(** [img[y0:y1, :]] *)
Definition crop_rows {A} (img : image A) (y0 y1 : Z) : image A :=
  let ys := slice_bound y0 (height img) in
  let ye := slice_bound y1 (height img) in
  Image (Z.max 0 (ye - ys)) (width img) (fun y x => px img (ys + y) x).

Definition map_image {A B} (f : A -> B) (img : image A) : image B :=
  Image (height img) (width img) (fun y x => f (px img y x)).

(** The pixels in row-major order. *)
Definition range (n : Z) : list Z := map Z.of_nat (seq 0 (Z.to_nat n)).

Definition pixels {A} (img : image A) : list A :=
  flat_map (fun y => map (fun x => px img y x) (range (width img)))
           (range (height img)).

(** [img.size] of a single-channel array *)
Definition size {A} (img : image A) : Z := height img * width img.

(** [np.sum] over an integer array *)
Definition np_sum (l : list Z) : Z := fold_right Z.add 0 l.

(** ** Outcomes: a value or a Python exception *)

Inductive exn :=
  | CvError (call : string)
  | URLError (url : string)
  | UnidentifiedImageError
  | ZeroDivisionError
  | OverflowError
  | ValueError
  | TypeError
  | KeyError (key : string).

Inductive result (A : Type) :=
  | Ok (a : A)
  | Raise (e : exn).
Arguments Ok {A} _.
Arguments Raise {A} _.

#[global] Instance result_ret : MRet result := fun A a => Ok a.
#[global] Instance result_bind : MBind result := fun A B f m =>
  match m with
  | Ok a => f a
  | Raise e => Raise e
  end.

(** [x, y = loc]: unpacking [None] is a [TypeError]. *)
Definition unpack {A} (loc : option A) : result A :=
  match loc with
  | Some p => Ok p
  | None => Raise TypeError
  end.

Definition is_Some_b {A} (o : option A) : bool :=
  match o with Some _ => true | None => false end.

(** [int(f)]: an infinity is an [OverflowError], NaN a [ValueError]. *)
Definition py_int (f : float) : result Z :=
  match Py64.trunc f with
  | Some z => Ok z
  | None => Raise (if Py64.is_nan f then ValueError else OverflowError)
  end.

(** [a / b] on Python ints *)
Definition py_truediv (a b : Z) : result float :=
  if b =? 0 then Raise ZeroDivisionError
  else Ok (Py64.div (Py64.of_int a) (Py64.of_int b)).

(** [d[k]] *)
Definition dict_item (d : dict) (k : string) : result value :=
  match dict_get d k with
  | Some v => Ok v
  | None => Raise (KeyError k)
  end.

(** ** Files, the network and the state the scripts run in *)

(** What a file holds, as far as the decoders are concerned. *)
Inductive file :=
  | Picture (img : image bgr)
  | Junk.

Record world := World {
  files : gmap string file;   (* local file system *)
  remote : gmap string file   (* what each URL serves; absent: unreachable *)
}.

Definition Py (A : Type) : Type := world -> result (A * world).

#[global] Instance Py_ret : MRet Py := fun A a w => Ok (a, w).
#[global] Instance Py_bind : MBind Py := fun A B f m w =>
  match m w with
  | Ok (a, w') => f a w'
  | Raise e => Raise e
  end.

Definition lift {A} (r : result A) : Py A := fun w =>
  match r with
  | Ok a => Ok (a, w)
  | Raise e => Raise e
  end.

Definition write_file (path : string) (f : file) (w : world) : world :=
  World (<[path := f]> (files w)) (remote w).

(** [urllib.request.urlretrieve(url, output_path)] *)
Definition urlretrieve (url output_path : string) : Py unit := fun w =>
  match remote w !! url with
  | Some f => Ok (tt, write_file output_path f w)
  | None => Raise (URLError url)
  end.

(** [cv2.imread]: [None] when the file is missing or does not decode. *)
Definition decode (f : file) : option (image bgr) :=
  match f with
  | Picture img => if is_empty img then None else Some img
  | Junk => None
  end.

Definition cv2_imread (path : string) : Py (option (image bgr)) := fun w =>
  Ok (files w !! path ≫= decode, w).

(** [PIL.Image.open(path)] followed by [img.width], [img.height].  The
    files PIL opens are taken to be the files OpenCV decodes; a missing file
    and a file that is no image are both an error (one and the same here). *)
Definition pil_open_size (path : string) : Py (Z * Z) := fun w =>
  match files w !! path ≫= decode with
  | Some img => Ok ((width img, height img), w)
  | None => Raise UnidentifiedImageError
  end.

(** ** OpenCV

    The pixel-level results of the library calls the scripts make. *)

Class OpenCV := {
  (** [cv2.resize (src, (w, h))]: the pixel at a row and column of the
      destination. *)
  resample_bgr : image bgr -> Z -> Z -> Z -> Z -> bgr;
  resample_gray : image Z -> Z -> Z -> Z -> Z -> Z;
  (** [cv2.cvtColor (_, COLOR_BGR2GRAY)] on one pixel. *)
  luminance : bgr -> Z;
  (** [cv2.Canny (gray, t1, t2)]: the edge map, 0 or 255 at each pixel. *)
  canny_map : image Z -> Z -> Z -> Z -> Z -> Z;
  (** [cv2.minMaxLoc (cv2.matchTemplate (image, templ, TM_CCOEFF_NORMED))]:
      the maximal score and its location [(x, y)]. *)
  correlation_peak : image Z -> image Z -> float * (Z * Z);
  (** [cv2.imwrite (path, img)]: whether the library has an encoder for the
      extension of [path] (without one the call is an error); whether the
      file can be created (if not, the call returns [False] and writes
      nothing); and the pixel a decoder reads back from what the encoder
      stored, which a lossy format changes. *)
  has_encoder : string -> bool;
  can_write : string -> bool;
  stored_px : string -> image bgr -> Z -> Z -> bgr
}.

Section Cv2.
Context `{OpenCV}.

(** [cv2.resize]: the destination has the requested size; an empty source
    or a size that is not positive is an error.  (Sizes are taken to be
    within the library's 32-bit range, as those of decoded images are.) *)
Definition cv2_resize {A} (resample : image A -> Z -> Z -> Z -> Z -> A)
    (src : image A) (dsize : Z * Z) : result (image A) :=
  let '(w, h) := dsize in
  if is_empty src || (w <=? 0) || (h <=? 0) then Raise (CvError "resize")
  else Ok (Image h w (resample src w h)).

Definition cv2_cvtColor_gray (src : image bgr) : result (image Z) :=
  if is_empty src then Raise (CvError "cvtColor")
  else Ok (map_image luminance src).

Definition cv2_Canny (gray : image Z) (t1 t2 : Z) : result (image Z) :=
  if is_empty gray then Raise (CvError "Canny")
  else Ok (Image (height gray) (width gray) (canny_map gray t1 t2)).

(** What a decoder reads back after [cv2.imwrite (path, img)]: an image of
    the same size. *)
Definition stored (path : string) (img : image bgr) : image bgr :=
  Image (height img) (width img) (stored_px path img).

(** [cv2.imwrite]: an empty image or a path without an encoder is an error;
    a file that cannot be created is left out silently (the script does not
    look at the value returned). *)
Definition cv2_imwrite (path : string) (img : image bgr) : Py unit := fun w =>
  if is_empty img then Raise (CvError "imwrite")
  else if negb (has_encoder path) then Raise (CvError "imwrite")
  else if can_write path then Ok (tt, write_file path (Picture (stored path img)) w)
  else Ok (tt, w).

(** [cv2.matchTemplate] followed by [cv2.minMaxLoc].  When the image is
    smaller than the template in a dimension the library swaps the two,
    and asserts that the image then fits in the template. *)
Definition cv2_match_peak (img templ : image Z) : result (float * (Z * Z)) :=
  if is_empty img || is_empty templ then Raise (CvError "matchTemplate")
  else if (height img <? height templ) || (width img <? width templ) then
    if (height img <=? height templ) && (width img <=? width templ)
    then Ok (correlation_peak templ img)
    else Raise (CvError "matchTemplate")
  else Ok (correlation_peak img templ).

End Cv2.

(** [if v:] on an optional integer argument *)
Definition int_truthy (v : option Z) : bool :=
  match v with
  | Some z => negb (z =? 0)
  | None => false
  end.

(** [if s:] on an optional string argument *)
Definition str_truthy (s : option string) : bool :=
  match s with
  | Some s => negb (String.eqb s "")
  | None => false
  end.

(** ** Text output

    What Python's formatting yields is not part of the repository either. *)

Class Formatting := {
  (** [json.dumps(d)] *)
  json_dumps : dict -> string;
  (** [f"{v:.2f}"] *)
  format_2f : value -> string;
  (** [str(v)] of a value that is not a string *)
  py_str : value -> string
}.

(** [f"{v}"] *)
Definition fstring `{Formatting} (v : value) : string :=
  match v with
  | VStr s => s
  | _ => py_str v
  end.

(** [if d.get(k):] *)
Definition value_truthy (v : option value) : bool :=
  match v with
  | None => false
  | Some (VBool b) => b
  | Some (VInt z) => negb (z =? 0)
  | Some (VFloat f) => negb (Py64.is_zero f)
  | Some (VStr s) => negb (String.eqb s "")
  | Some (VDict d) => match d with [] => false | _ => true end
  end.

(** * match-screenshot.py *)

Module MatchScreenshot.
Section WithOpenCV.
Context `{OpenCV}.

Definition download_image (url output_path : string) : Py string :=
  _ ← urlretrieve url output_path;
  mret output_path.

Definition load_image (path_or_url : string) : Py (option (image bgr)) :=
  if String.prefix "http" path_or_url then
    let temp_path := "/tmp/feedbucket_template.jpg" in
    _ ← download_image path_or_url temp_path;
    cv2_imread temp_path
  else cv2_imread path_or_url.

(** The literals of the scale sweep, in iteration order. *)
Definition tmpl_scales : list float :=
  [ Py64.lit 5 10; Py64.lit 75 100; Py64.lit 9 10; Py64.lit 10 10;
    Py64.lit 11 10; Py64.lit 125 100; Py64.lit 15 10 ].

(** The four variables the sweep updates. *)
Record sweep := Sweep {
  best_match : option dict;
  best_val : num;
  best_scale : float;
  best_loc : option (Z * Z)
}.

Definition sweep_init : sweep :=
  Sweep None (NInt (-1)) (Py64.lit 10 10) None.

(** [int(n * s)] for an image dimension [n] and a scale [s]. *)
Definition scaled_dim (n : Z) (s : float) : result Z :=
  py_int (Py64.mul (Py64.of_int n) s).

(** The condition of the [continue]. *)
Definition skip_scale (scaled_tmpl_w scaled_tmpl_h scaled_w scaled_h : Z) : bool :=
  (scaled_tmpl_w >=? scaled_w) || (scaled_tmpl_h >=? scaled_h).

(** One iteration of the [for tmpl_scale in ...] loop. *)
Definition sweep_body (full_gray tmpl_gray : image Z)
    (tmpl_w tmpl_h scaled_w scaled_h : Z)
    (st : sweep) (tmpl_scale : float) : result sweep :=
  scaled_tmpl_w ← scaled_dim tmpl_w tmpl_scale;
  scaled_tmpl_h ← scaled_dim tmpl_h tmpl_scale;
  if skip_scale scaled_tmpl_w scaled_tmpl_h scaled_w scaled_h then mret st
  else
    scaled_template ← cv2_resize resample_gray tmpl_gray (scaled_tmpl_w, scaled_tmpl_h);
    '(max_val, max_loc) ← cv2_match_peak full_gray scaled_template;
    if Py64.ltb (num_float (best_val st)) max_val then
      mret (Sweep
        (Some [ ("x", VInt (fst max_loc)); ("y", VInt (snd max_loc));
                ("width", VInt scaled_tmpl_w); ("height", VInt scaled_tmpl_h);
                ("confidence", VFloat max_val);
                ("template_scale", VFloat tmpl_scale) ])
        (NFloat max_val) tmpl_scale (Some max_loc))
    else mret st.

Fixpoint sweep_loop (full_gray tmpl_gray : image Z)
    (tmpl_w tmpl_h scaled_w scaled_h : Z)
    (st : sweep) (scales : list float) : result sweep :=
  match scales with
  | [] => mret st
  | tmpl_scale :: rest =>
      st' ← sweep_body full_gray tmpl_gray tmpl_w tmpl_h scaled_w scaled_h st tmpl_scale;
      sweep_loop full_gray tmpl_gray tmpl_w tmpl_h scaled_w scaled_h st' rest
  end.

(** Lines 55-64: the full page brought to the viewport width. *)
Definition scale_full_page (full_page : image bgr)
    (viewport_width viewport_height : option Z) : result (image bgr) :=
  if int_truthy viewport_width && int_truthy viewport_height then
    let vw := default 0 viewport_width in
    scale ← py_truediv vw (width full_page);
    let new_w := vw in
    new_h ← py_int (Py64.mul (Py64.of_int (height full_page)) scale);
    cv2_resize resample_bgr full_page (new_w, new_h)
  else mret full_page.

Definition load_error (what path : string) : dict :=
  [ ("error", VStr (String.append what path)) ].

(** Lines 106-118: the crop from the top left corner.  (The warning it
    prints goes to the standard error stream and is left out.) *)
Definition fallback_crop (full_page_scaled : image bgr) (tmpl_w tmpl_h : Z)
    (output_path : string) (best_val : num) : Py dict :=
  let '(scaled_h, scaled_w) := shape full_page_scaled in
  let crop_h := Z.min tmpl_h scaled_h in
  let crop_w := Z.min tmpl_w scaled_w in
  let cropped := crop full_page_scaled 0 crop_h 0 crop_w in
  _ ← cv2_imwrite output_path cropped;
  mret [ ("success", VBool true);
         ("confidence",
          if num_truthy best_val then value_of_num best_val else VInt 0);
         ("fallback", VBool true);
         ("output", VStr output_path) ].

(** Lines 120-143: the matched region, resized to the template's size. *)
Definition extract_region (full_page_scaled : image bgr) (tmpl_w tmpl_h : Z)
    (output_path : string) (st : sweep) : Py dict :=
  let '(scaled_h, scaled_w) := shape full_page_scaled in
  '(x, y) ← lift (unpack (best_loc st));
  w ← lift (scaled_dim tmpl_w (best_scale st));
  h ← lift (scaled_dim tmpl_h (best_scale st));
  let x2 := Z.min (x + w) scaled_w in
  let y2 := Z.min (y + h) scaled_h in
  let cropped := crop full_page_scaled y y2 x x2 in
  cropped ← lift (cv2_resize resample_bgr cropped (tmpl_w, tmpl_h));
  _ ← cv2_imwrite output_path cropped;
  mret [ ("success", VBool true);
         ("confidence", value_of_num (best_val st));
         ("match_location", VDict [ ("x", VInt x); ("y", VInt y) ]);
         ("match_size", VDict [ ("width", VInt w); ("height", VInt h) ]);
         ("template_scale", VFloat (best_scale st));
         ("output", VStr output_path) ].

(** [best_match is None or best_val < 0.3] *)
Definition low_confidence (st : sweep) : bool :=
  negb (is_Some_b (best_match st))
  || Py64.ltb (num_float (best_val st)) (Py64.lit 3 10).

Definition match_template (full_page_path template_path_or_url output_path : string)
    (viewport_width viewport_height : option Z) : Py dict :=
  full_page ← cv2_imread full_page_path;
  template ← load_image template_path_or_url;
  match full_page, template with
  | None, _ =>
      mret (load_error "Could not load full page image: " full_page_path)
  | Some _, None =>
      mret (load_error "Could not load template image: " template_path_or_url)
  | Some full_page, Some template =>
      let '(full_h, full_w) := shape full_page in
      let '(tmpl_h, tmpl_w) := shape template in
      full_page_scaled ← lift (scale_full_page full_page viewport_width viewport_height);
      let '(scaled_h, scaled_w) := shape full_page_scaled in
      full_gray ← lift (cv2_cvtColor_gray full_page_scaled);
      tmpl_gray ← lift (cv2_cvtColor_gray template);
      st ← lift (sweep_loop full_gray tmpl_gray tmpl_w tmpl_h scaled_w scaled_h
                   sweep_init tmpl_scales);
      if low_confidence st then
        fallback_crop full_page_scaled tmpl_w tmpl_h output_path (best_val st)
      else
        extract_region full_page_scaled tmpl_w tmpl_h output_path st
  end.

(** What [argparse] hands to [main]. *)
Record args := Args {
  arg_full_page : string;
  arg_template : string;
  arg_output : string;
  arg_viewport_width : option Z;
  arg_viewport_height : option Z;
  arg_json : bool
}.

(** [main], from the parsed arguments on; the value is the lines printed. *)
Definition main `{Formatting} (args : args) : Py (list string) :=
  result ← match_template (arg_full_page args) (arg_template args) (arg_output args)
             (arg_viewport_width args) (arg_viewport_height args);
  if arg_json args then mret [ json_dumps result ]
  else if value_truthy (dict_get result "success") then
    confidence ← lift (dict_item result "confidence");
    output ← lift (dict_item result "output");
    mret [ String.append "Match found with "
             (String.append (format_2f confidence) " confidence");
           String.append "Output saved to: " (fstring output) ]
  else
    mret [ String.append "Error: "
             (fstring (default (VStr "Unknown error") (dict_get result "error"))) ].

End WithOpenCV.
End MatchScreenshot.

(** * smart-capture.py *)

Module SmartCapture.
Section WithOpenCV.
Context `{OpenCV}.

Definition download_image (url output_path : string) : Py string :=
  _ ← urlretrieve url output_path;
  mret output_path.

Definition get_image_dimensions (path_or_url : string) : Py dict :=
  path_or_url ←
    (if String.prefix "http" path_or_url then
       let temp_path := "/tmp/feedbucket_check.jpg" in
       _ ← download_image path_or_url temp_path;
       mret temp_path
     else mret path_or_url);
  '(img_width, img_height) ← pil_open_size path_or_url;
  mret [ ("width", VInt img_width); ("height", VInt img_height) ].

(** [np.sum(gray < 50)] *)
Definition count_dark (gray : image Z) : Z :=
  np_sum (map (fun v => if v <? 50 then 1 else 0) (pixels gray)).

(** Lines 46-65: the heuristic on a decoded image. *)
Definition header_heuristic (img : image bgr) : result bool :=
  let '(height, width) := shape img in
  let top_region := crop_rows img 0 (Z.min 100 height) in
  gray ← cv2_cvtColor_gray top_region;
  let dark_pixels := count_dark gray in
  let total_pixels := size gray in
  let dark_ratio := np_truediv dark_pixels total_pixels in
  edges ← cv2_Canny gray 50 150;
  let horizontal_lines := np_truediv (np_sum (pixels edges)) total_pixels in
  mret (Py64.ltb (Py64.lit 5 100) dark_ratio
        || Py64.ltb (Py64.of_int 10) horizontal_lines).

(** The [threshold] argument (50 unless the caller gives one) is not used
    by the body, which compares with the literal 50. *)
Definition detect_header_visible (image_path_or_url : string) (threshold : Z)
    : Py bool :=
  image_path_or_url ←
    (if String.prefix "http" image_path_or_url then
       let temp_path := "/tmp/feedbucket_detect.jpg" in
       _ ← download_image image_path_or_url temp_path;
       mret temp_path
     else mret image_path_or_url);
  img ← cv2_imread image_path_or_url;
  match img with
  | None => mret true
  | Some img => lift (header_heuristic img)
  end.

Definition no_position : dict :=
  [ ("scroll_y", VInt 0); ("confidence", VInt 0) ].

(** Lines 84-111: the template located in the decoded full page. *)
Definition locate_template (full_page template : image bgr) : result dict :=
  let '(tmpl_h, tmpl_w) := shape template in
  let '(full_h, full_w) := shape full_page in
  template ←
    (if negb (tmpl_w =? full_w) then
       scale ← py_truediv full_w tmpl_w;
       new_h ← py_int (Py64.mul (Py64.of_int tmpl_h) scale);
       cv2_resize resample_bgr template (full_w, new_h)
     else mret template);
  let '(tmpl_h, tmpl_w) := shape template in
  full_gray ← cv2_cvtColor_gray full_page;
  tmpl_gray ← cv2_cvtColor_gray template;
  if tmpl_h >=? full_h then mret no_position
  else
    '(max_val, max_loc) ← cv2_match_peak full_gray tmpl_gray;
    mret [ ("scroll_y", VInt (snd max_loc));
           ("confidence", VFloat max_val);
           ("match_x", VInt (fst max_loc));
           ("template_height", VInt tmpl_h) ].

Definition find_scroll_position (full_page_path template_path_or_url : string)
    : Py dict :=
  full_page ← cv2_imread full_page_path;
  template ←
    (if String.prefix "http" template_path_or_url then
       let temp_path := "/tmp/feedbucket_template.jpg" in
       _ ← download_image template_path_or_url temp_path;
       cv2_imread temp_path
     else cv2_imread template_path_or_url);
  match full_page, template with
  | Some full_page, Some template => lift (locate_template full_page template)
  | _, _ => mret no_position
  end.

Definition analyze_capture_requirements (feedbucket_url : string)
    (full_page_path : option string) : Py dict :=
  dims ← get_image_dimensions feedbucket_url;
  header_visible ← detect_header_visible feedbucket_url 50;
  dims_width ← lift (dict_item dims "width");
  dims_height ← lift (dict_item dims "height");
  let result :=
    [ ("viewport_width", dims_width);
      ("viewport_height", dims_height);
      ("capture_type", VStr (if header_visible : bool then "viewport" else "scroll_match"));
      ("header_visible", VBool header_visible) ] in
  if negb header_visible && str_truthy full_page_path then
    scroll_info ← find_scroll_position (default "" full_page_path) feedbucket_url;
    scroll_y ← lift (dict_item scroll_info "scroll_y");
    let result := dict_set result "scroll_y" scroll_y in
    confidence ← lift (dict_item scroll_info "confidence");
    let result := dict_set result "match_confidence" confidence in
    mret result
  else if negb header_visible then
    mret (dict_set result "needs_full_page" (VBool true))
  else mret result.

End WithOpenCV.
End SmartCapture.

(** * Definitions used to state the properties *)

(** What a path-or-URL argument stands for: the resource at the URL when the
    string starts with [http], the local file otherwise. *)
Definition served (w : world) (path_or_url : string) : option file :=
  if String.prefix "http" path_or_url then remote w !! path_or_url
  else files w !! path_or_url.

(** The world once a path-or-URL argument was fetched to [temp_path]. *)
Definition fetched (temp_path : string) (w : world) (path_or_url : string) : world :=
  if String.prefix "http" path_or_url then
    match remote w !! path_or_url with
    | Some f => write_file temp_path f w
    | None => w
    end
  else w.

(** Fetching a path-or-URL argument does not fail: a local path is not
    fetched at all, a URL has to be reachable. *)
Definition fetchable (w : world) (path_or_url : string) : bool :=
  if String.prefix "http" path_or_url then is_Some_b (remote w !! path_or_url)
  else true.

(** A loader of a path-or-URL argument, in the words of its description:
    a string that starts with [http] is a URL, downloaded to [temp_path] and
    decoded from there; any other string goes to the decoder as a path.
    [k] is what the caller does with the decoded image. *)
Definition resolve {A} (temp_path : string) (k : option (image bgr) -> result A)
    (path_or_url : string) : Py A := fun w =>
  if String.prefix "http" path_or_url then
    match remote w !! path_or_url with
    | Some f => lift (k (decode f)) (write_file temp_path f w)
    | None => Raise (URLError path_or_url)
    end
  else lift (k (files w !! path_or_url ≫= decode)) w.

(** The width and height of the image a run leaves at [path]. *)
Definition output_size {A} (path : string) (r : result (A * world)) : option (Z * Z) :=
  match r with
  | Ok (_, w) =>
      match files w !! path with
      | Some (Picture img) => Some (width img, height img)
      | _ => None
      end
  | Raise _ => None
  end.

(** The state a run ends in; [w] when it raises. *)
Definition world_after {A} (r : result (A * world)) (w : world) : world :=
  match r with
  | Ok (_, w') => w'
  | Raise _ => w
  end.

(** The value a run returns, if it returns. *)
Definition returned {A} (r : result (A * world)) : option A :=
  match r with
  | Ok (a, _) => Some a
  | Raise _ => None
  end.

(** [lo <= v <= hi] for a number stored in a result. *)
Definition value_between (lo hi : float) (v : value) : bool :=
  match v with
  | VInt z => Py64.leb lo (Py64.of_int z) && Py64.leb (Py64.of_int z) hi
  | VFloat f => Py64.leb lo f && Py64.leb f hi
  | _ => false
  end.

Section Statements.
Context `{OpenCV}.

(** Laws of the correlation peak: a score is a number between -1 and 1,
    and the peak lies where the template fits inside the image. *)
Definition scores_not_nan : Prop :=
  forall img t, Py64.is_nan (fst (correlation_peak img t)) = false.

Definition scores_bounded : Prop :=
  forall img t,
    Py64.leb (Py64.of_int (-1)) (fst (correlation_peak img t)) = true /\
    Py64.leb (fst (correlation_peak img t)) (Py64.of_int 1) = true.

Definition peak_inside : Prop :=
  forall img t,
    width t <= width img -> height t <= height img ->
    0 <= fst (snd (correlation_peak img t)) <= width img - width t /\
    0 <= snd (snd (correlation_peak img t)) <= height img - height t.

(** How a run ends that hands [img] to [cv2.imwrite] for the path [out] and
    then returns [a]: an error without an encoder for [out], and otherwise
    [a], with the stored image at [out] when that file can be created. *)
Definition after_imwrite {A} (out : string) (a : A) (img : image bgr) (w : world)
    : result (A * world) :=
  if has_encoder out then
    Ok (a, if can_write out then write_file out (Picture (stored out img)) w else w)
  else Raise (CvError "imwrite").

(** What one scale of the sweep yields when it is not skipped. *)
Record trial := Trial {
  t_w : Z;
  t_h : Z;
  t_val : float;
  t_loc : Z * Z
}.

(** The outcome of trying one scale, apart from the running best:
    [None] when the scale is skipped. *)
Definition attempt (full_gray tmpl_gray : image Z)
    (tmpl_w tmpl_h scaled_w scaled_h : Z) (s : float) : result (option trial) :=
  a ← MatchScreenshot.scaled_dim tmpl_w s;
  b ← MatchScreenshot.scaled_dim tmpl_h s;
  if MatchScreenshot.skip_scale a b scaled_w scaled_h then mret None
  else
    t ← cv2_resize resample_gray tmpl_gray (a, b);
    p ← cv2_match_peak full_gray t;
    mret (Some (Trial a b (fst p) (snd p))).

(** The template resized by [s] exceeds a page of [scaled_w] by [scaled_h]
    pixels in width or in height. *)
Definition exceeds_page (tmpl_w tmpl_h scaled_w scaled_h : Z) (s : float) : bool :=
  match MatchScreenshot.scaled_dim tmpl_w s, MatchScreenshot.scaled_dim tmpl_h s with
  | Ok a, Ok b => (scaled_w <? a) || (scaled_h <? b)
  | _, _ => false
  end.

(** The state the sweep holds after scale [s] became the best. *)
Definition record_of (s : float) (t : trial) : MatchScreenshot.sweep :=
  MatchScreenshot.Sweep
    (Some [ ("x", VInt (fst (t_loc t))); ("y", VInt (snd (t_loc t)));
            ("width", VInt (t_w t)); ("height", VInt (t_h t));
            ("confidence", VFloat (t_val t));
            ("template_scale", VFloat s) ])
    (NFloat (t_val t)) s (Some (t_loc t)).

(** The record [match_template] returns for a match at scale [s]. *)
Definition match_record (s : float) (t : trial) (output_path : string) : dict :=
  [ ("success", VBool true);
    ("confidence", VFloat (t_val t));
    ("match_location",
     VDict [ ("x", VInt (fst (t_loc t))); ("y", VInt (snd (t_loc t))) ]);
    ("match_size", VDict [ ("width", VInt (t_w t)); ("height", VInt (t_h t)) ]);
    ("template_scale", VFloat s);
    ("output", VStr output_path) ].

(** The header heuristic in the words of its description: over the top
    [min(100, height)] rows, the share of pixels darker than 50, and the
    sum of the edge map over the number of pixels. *)
Definition top_rows (img : image bgr) : Z := Z.min 100 (height img).

Definition coords (rows cols : Z) : list (Z * Z) :=
  flat_map (fun y => map (fun x => (y, x)) (range cols)) (range rows).

Definition dark_count (img : image bgr) : Z :=
  Z.of_nat (length (List.filter (fun p => luminance (px img (fst p) (snd p)) <? 50)
                           (coords (top_rows img) (width img)))).

Definition dark_fraction (img : image bgr) : float :=
  np_truediv (dark_count img) (top_rows img * width img).

Definition top_gray (img : image bgr) : image Z :=
  Image (top_rows img) (width img) (fun y x => luminance (px img y x)).

Definition edge_sum (img : image bgr) : Z :=
  np_sum (map (fun p => canny_map (top_gray img) 50 150 (fst p) (snd p))
              (coords (top_rows img) (width img))).

Definition edge_density (img : image bgr) : float :=
  np_truediv (edge_sum img) (top_rows img * width img).

Definition header_test (img : image bgr) : bool :=
  Py64.ltb (Py64.lit 5 100) (dark_fraction img)
  || Py64.ltb (Py64.of_int 10) (edge_density img).

(** What the three loaders of smart-capture.py do with the decoded image. *)
Definition dimensions_of (o : option (image bgr)) : result dict :=
  match o with
  | Some img => Ok [ ("width", VInt (width img)); ("height", VInt (height img)) ]
  | None => Raise UnidentifiedImageError
  end.

Definition header_of (o : option (image bgr)) : result bool :=
  match o with
  | Some img => SmartCapture.header_heuristic img
  | None => Ok true
  end.

Definition position_of (full_page template : option (image bgr)) : result dict :=
  match full_page, template with
  | Some full_page, Some template => SmartCapture.locate_template full_page template
  | _, _ => Ok SmartCapture.no_position
  end.

End Statements.

(** ** A concrete library and concrete files, to run the scripts on *)

Module Sample.

(** Nearest-neighbour resampling, mean luminance, an edge detector that
    marks a pixel next to a darker left neighbour, and a matcher that
    scores 0.45 for a template under 45 pixels wide and 0.6 above. *)
Definition nearest {A} (src : image A) (w h y x : Z) : A :=
  px src (y * height src / h) (x * width src / w).

Definition peak_score (t : image Z) : float :=
  if width t <? 45 then Py64.lit 45 100 else Py64.lit 60 100.

Definition ends_with (suffix s : string) : bool :=
  (String.length suffix <=? String.length s)%nat
  && String.eqb (String.substring (String.length s - String.length suffix)
                                  (String.length suffix) s) suffix.

(** Encoders for .png (lossless) and .jpg (here: every channel rounded down
    to an even value); nothing can be created under [/readonly/]. *)
Definition round_even (p : bgr) : bgr :=
  let '(b, g, r) := p in (b / 2 * 2, g / 2 * 2, r / 2 * 2).

Definition cv : OpenCV := {|
  resample_bgr := nearest;
  resample_gray := nearest;
  luminance := fun p => let '(b, g, r) := p in (b + g + r) / 3;
  canny_map := fun gray _ _ y x =>
    if (0 <? x) && (px gray y (x - 1) + 100 <? px gray y x) then 255 else 0;
  correlation_peak := fun img t => (peak_score t, (0, 0));
  has_encoder := fun path => ends_with ".png" path || ends_with ".jpg" path;
  can_write := fun path => negb (String.prefix "/readonly/" path);
  stored_px := fun path img y x =>
    if ends_with ".jpg" path then round_even (px img y x) else px img y x
|}.

Definition flat (h w c : Z) : image bgr := Image h w (fun _ _ => (c, c, c)).

(** A light page with a dark band over its first 120 rows. *)
Definition banded (h w : Z) : image bgr :=
  Image h w (fun y _ => if y <? 120 then (10, 10, 10) else (240, 240, 240)).

(** A page 100 wide and 200 high, a screenshot of 40 by 40. *)
Definition page : image bgr := flat 200 100 255.
Definition shot : image bgr := flat 40 40 200.

Definition disk : world :=
  World (<["page.png" := Picture page]>
         (<["shot.png" := Picture shot]>
         (<["same.png" := Picture page]>
         (<["top.png" := Picture (banded 300 80)]>
         (<["http_local.png" := Picture shot]>
         (<["broken.png" := Junk]> ∅))))))
        (<["http://host/shot.png" := Picture shot]>
         (<["http://host/page.png" := Picture page]>
         (<["http://host/broken.png" := Junk]> ∅))).

(** What the sweep finds for [shot] in [page]: scale 1.25 is the first to
    score 0.6. *)
Definition found : trial := Trial 50 50 (Py64.lit 60 100) (0, 0).

End Sample.

(** Further files: a template one pixel wide, a strip one pixel high and
    1000 wide, a template of half the page's size, and a plain printer. *)
Module SampleEdge.

Definition line : image bgr := Sample.flat 30 1 200.
Definition strip : image bgr := Sample.flat 1 1000 200.

(** Half as wide and half as high as [Sample.page]. *)
Definition half : image bgr := Sample.flat 100 50 255.

Definition disk : world :=
  World (<["page.png" := Picture Sample.page]>
         (<["line.png" := Picture line]>
         (<["strip.png" := Picture strip]>
         (<["half.png" := Picture half]>
         (<["shot.png" := Picture Sample.shot]> ∅)))))
        (<["http://host/shot.png" := Picture Sample.shot]> ∅).

Definition printer : Formatting := {|
  json_dumps := fun _ => "{}";
  format_2f := fun v => match v with VInt _ => "-1.00" | _ => "0.60" end;
  py_str := fun _ => "?"
|}.

End SampleEdge.

(** * Properties *)

(** ** The order on floats *)

Module FloatOrder.
Import Py64.

Ltac cmp_cases :=
  repeat match goal with
  | |- context [Z.compare ?a ?b] => destruct (Z.compare_spec a b)
  | H : context [Z.compare ?a ?b] |- _ => destruct (Z.compare_spec a b)
  | |- context [Pos.compare_cont Eq ?a ?b] =>
      change (Pos.compare_cont Eq a b) with (Pos.compare a b);
      destruct (Pos.compare_spec a b)
  | H : context [Pos.compare_cont Eq ?a ?b] |- _ =>
      change (Pos.compare_cont Eq a b) with (Pos.compare a b) in H;
      destruct (Pos.compare_spec a b)
  end.

Ltac split_floats :=
  repeat match goal with
  | f : float |- _ => destruct f as [[]|[]| |[] ? ?]
  | f : spec_float |- _ => destruct f as [[]|[]| |[] ? ?]
  end.

Ltac by_cases :=
  unfold ltb, leb, is_nan, SFeqb, SFltb, SFleb; split_floats; simpl;
  try congruence; intros; cmp_cases; subst; simpl in *;
  try congruence; try lia.

Lemma ltb_trans (a b c : float) :
  ltb a b = true -> ltb b c = true -> ltb a c = true.
Proof. by_cases. Qed.

Lemma leb_ltb_trans (a b c : float) :
  leb a b = true -> ltb b c = true -> ltb a c = true.
Proof. by_cases. Qed.

Lemma ltb_leb_trans (a b c : float) :
  ltb a b = true -> leb b c = true -> ltb a c = true.
Proof. by_cases. Qed.

Lemma leb_trans (a b c : float) :
  leb a b = true -> leb b c = true -> leb a c = true.
Proof. by_cases. Qed.

Lemma not_ltb_leb (a b : float) :
  is_nan a = false -> is_nan b = false -> ltb a b = false -> leb b a = true.
Proof. by_cases. Qed.

Lemma ltb_leb (a b : float) : ltb a b = true -> leb a b = true.
Proof. by_cases. Qed.

Lemma ltb_not_eqb (a b : float) : ltb a b = true -> SFeqb a b = false.
Proof. by_cases. Qed.

Lemma ltb_not_leb (a b : float) : ltb a b = true -> leb b a = false.
Proof. by_cases. Qed.

Lemma leb_not_nan_l (a b : float) : leb a b = true -> is_nan a = false.
Proof. by_cases. Qed.

Lemma leb_not_nan_r (a b : float) : leb a b = true -> is_nan b = false.
Proof. by_cases. Qed.

(** A quotient with a zero numerator is a zero or NaN, so it exceeds no
    positive threshold. *)
Lemma zero_quotient_below (c : float) (b : Z) :
  ltb (of_int 0) c = true -> ltb c (np_truediv 0 b) = false.
Proof.
  unfold np_truediv, div. change (of_int 0) with (S754_zero false).
  destruct (of_int b) as [[]|[]| |[] ? ?], c as [[]|[]| |[] ? ?];
    simpl; unfold ltb, SFltb; simpl; congruence.
Qed.

End FloatOrder.

(** ** Running the monads *)

Lemma bind_Ok {A B} (m : result A) (k : A -> result B) (b : B) :
  (m ≫= k) = Ok b -> exists a, m = Ok a /\ k a = Ok b.
Proof. destruct m; simpl; [eauto | discriminate]. Qed.

Lemma Py_bind_Ok {A B} (m : Py A) (k : A -> Py B) (w w' : world) (b : B) :
  (m ≫= k) w = Ok (b, w') ->
  exists a w1, m w = Ok (a, w1) /\ k a w1 = Ok (b, w').
Proof.
  unfold mbind, Py_bind. destruct (m w) as [[a w1]|]; [eauto | discriminate].
Qed.

Lemma lift_Ok {A} (r : result A) (w w' : world) (a : A) :
  lift r w = Ok (a, w') -> r = Ok a /\ w' = w.
Proof. unfold lift. destruct r; intros E; inversion E; auto. Qed.

Lemma cv2_imread_eq (path : string) (w : world) :
  cv2_imread path w = Ok (files w !! path ≫= decode, w).
Proof. reflexivity. Qed.

Lemma decode_nonempty (f : file) (img : image bgr) :
  decode f = Some img -> is_empty img = false.
Proof.
  destruct f as [i|]; simpl; [|discriminate].
  destruct (is_empty i) eqn:E; intros [= <-]; assumption.
Qed.

Lemma read_nonempty (o : option file) (img : image bgr) :
  o ≫= decode = Some img -> is_empty img = false.
Proof. destruct o as [f|]; simpl; [apply decode_nonempty | discriminate]. Qed.

Lemma is_empty_false {A} (img : image A) :
  is_empty img = false <-> 0 < height img /\ 0 < width img.
Proof. unfold is_empty. rewrite orb_false_iff, !Z.leb_gt. tauto. Qed.

(** ** The scale sweep of [match_template] *)

Section Sweep.
Context `{OpenCV}.
Import MatchScreenshot.

Variables (full_gray tmpl_gray : image Z) (tmpl_w tmpl_h scaled_w scaled_h : Z).

Local Abbreviation body := (sweep_body full_gray tmpl_gray tmpl_w tmpl_h scaled_w scaled_h).
Local Abbreviation loop := (sweep_loop full_gray tmpl_gray tmpl_w tmpl_h scaled_w scaled_h).
Local Abbreviation try := (attempt full_gray tmpl_gray tmpl_w tmpl_h scaled_w scaled_h).

(** The loop body is the attempt followed by the comparison with the
    running best. *)
Lemma sweep_body_attempt (st : sweep) (s : float) :
  body st s =
  (o ← try s;
   match o with
   | None => Ok st
   | Some t =>
       if Py64.ltb (num_float (best_val st)) (t_val t) then Ok (record_of s t)
       else Ok st
   end).
Proof.
  unfold sweep_body, attempt, mbind, mret, result_bind, result_ret.
  destruct (scaled_dim tmpl_w s) as [a|]; [|reflexivity].
  destruct (scaled_dim tmpl_h s) as [b|]; [|reflexivity].
  destruct (skip_scale a b scaled_w scaled_h); [reflexivity|].
  destruct (cv2_resize resample_gray tmpl_gray (a, b)) as [t|]; [|reflexivity].
  destruct (cv2_match_peak full_gray t) as [[v loc]|]; reflexivity.
Qed.

Lemma attempt_not_nan (s : float) (t : trial) :
  scores_not_nan -> try s = Ok (Some t) -> Py64.is_nan (t_val t) = false.
Proof.
  intros Hn. unfold attempt. intros E.
  apply bind_Ok in E as (a & _ & E). apply bind_Ok in E as (b & _ & E).
  destruct (skip_scale a b scaled_w scaled_h); [discriminate|].
  apply bind_Ok in E as (r & _ & E). apply bind_Ok in E as (p & Hp & E).
  injection E as <-. simpl.
  unfold cv2_match_peak in Hp.
  repeat match type of Hp with
  | (if ?c then _ else _) = _ => destruct c
  end; try discriminate; injection Hp as <-; apply Hn.
Qed.

(** A scale that is tried has a template strictly smaller than the page,
    of positive size. *)
Lemma attempt_fits (s : float) (t : trial) :
  try s = Ok (Some t) ->
  scaled_dim tmpl_w s = Ok (t_w t) /\ scaled_dim tmpl_h s = Ok (t_h t) /\
  0 < t_w t < scaled_w /\ 0 < t_h t < scaled_h /\
  exists r, cv2_resize resample_gray tmpl_gray (t_w t, t_h t) = Ok r /\
            width r = t_w t /\ height r = t_h t /\
            cv2_match_peak full_gray r = Ok (t_val t, t_loc t).
Proof.
  unfold attempt. intros E.
  apply bind_Ok in E as (a & Ha & E). apply bind_Ok in E as (b & Hb & E).
  destruct (skip_scale a b scaled_w scaled_h) eqn:Hs; [discriminate|].
  apply bind_Ok in E as (r & Hr & E). apply bind_Ok in E as (p & Hp & E).
  injection E as <-. cbn [t_w t_h t_val t_loc].
  unfold skip_scale in Hs. apply orb_false_iff in Hs as [Hs1 Hs2].
  assert (Hr' := Hr). unfold cv2_resize in Hr'.
  destruct (is_empty tmpl_gray || (a <=? 0) || (b <=? 0)) eqn:Hc; [discriminate|].
  apply orb_false_iff in Hc as [Hc Hc3]. apply orb_false_iff in Hc as [Hc1 Hc2].
  split; [exact Ha|]. split; [exact Hb|].
  split; [lia|]. split; [lia|].
  exists r. split; [exact Hr|].
  injection Hr' as <-. cbn [width height].
  split; [reflexivity|]. split; [reflexivity|].
  rewrite Hp. destruct p; reflexivity.
Qed.

(** The sweep keeps the first scale that reaches the maximal score. *)
Lemma sweep_loop_spec (Hn : scores_not_nan) (scales : list float) :
  forall st st',
    Py64.is_nan (num_float (best_val st)) = false ->
    loop st scales = Ok st' ->
    (st' = st /\
     forall s t, In s scales -> try s = Ok (Some t) ->
                 Py64.ltb (num_float (best_val st)) (t_val t) = false)
    \/
    (exists pre s post t,
       scales = (pre ++ s :: post)%list /\ try s = Ok (Some t) /\
       st' = record_of s t /\
       Py64.ltb (num_float (best_val st)) (t_val t) = true /\
       (forall s' t', In s' pre -> try s' = Ok (Some t') ->
                      Py64.ltb (t_val t') (t_val t) = true) /\
       (forall s' t', In s' post -> try s' = Ok (Some t') ->
                      Py64.leb (t_val t') (t_val t) = true)).
Proof.
  induction scales as [|s rest IH]; intros st st' Hst E; simpl in E.
  - injection E as <-. left. split; [reflexivity|]. intros ? ? [].
  - apply bind_Ok in E as (st1 & Hb & E).
    rewrite sweep_body_attempt in Hb.
    apply bind_Ok in Hb as (o & Ho & Hb).
    match goal with |- ?G =>
      assert (Hkeep : st1 = st ->
                (forall t, o = Some t ->
                   Py64.ltb (num_float (best_val st)) (t_val t) = false) ->
                G); [intros -> Hlow|]
    end.
    { destruct (IH st st' Hst E)
        as [[-> Hall]|(pre & s0 & post & t & -> & Ht & -> & Hlt & Hpre & Hpost)].
      - left. split; [reflexivity|].
        intros s' t' [<-|Hin] Ht'; [|eauto].
        apply Hlow. congruence.
      - right. exists (s :: pre), s0, post, t.
        split; [reflexivity|]. split; [exact Ht|]. split; [reflexivity|].
        split; [exact Hlt|]. split; [|exact Hpost].
        intros s' t' [<-|Hin] Ht'; [|eauto].
        eapply FloatOrder.leb_ltb_trans; [|exact Hlt].
        apply FloatOrder.not_ltb_leb; [exact Hst|eapply attempt_not_nan; eauto|].
        apply Hlow. congruence. }
    destruct o as [t|];
      [|injection Hb as <-; apply Hkeep; [reflexivity|discriminate]].
    destruct (Py64.ltb (num_float (best_val st)) (t_val t)) eqn:Hlt;
      [|injection Hb as <-; apply Hkeep; [reflexivity|intros ? [= <-]; exact Hlt]].
    injection Hb as <-.
    assert (Hnt : Py64.is_nan (t_val t) = false) by (eapply attempt_not_nan; eauto).
    destruct (IH (record_of s t) st' Hnt E)
      as [[-> Hall]|(pre & s0 & post & t0 & -> & Ht & -> & Hlt0 & Hpre & Hpost)].
    + right. exists [], s, rest, t.
      split; [reflexivity|]. split; [exact Ho|]. split; [reflexivity|].
      split; [exact Hlt|]. split; [intros s' t' []|].
      intros s' t' Hin Ht'.
      apply FloatOrder.not_ltb_leb;
        [exact Hnt|eapply attempt_not_nan; eauto|exact (Hall s' t' Hin Ht')].
    + right. exists (s :: pre), s0, post, t0.
      split; [reflexivity|]. split; [exact Ht|]. split; [reflexivity|].
      split; [eapply FloatOrder.ltb_trans; [exact Hlt|exact Hlt0]|].
      split; [|exact Hpost].
      intros s' t' [<-|Hin] Ht'; [|eauto].
      rewrite Ho in Ht'. injection Ht' as <-. exact Hlt0.
Qed.

End Sweep.

(** ** Loading and the parts of [match_template] *)

Lemma Py_bind_eq {A B} (m : Py A) (k : A -> Py B) (w w1 : world) (a : A) :
  m w = Ok (a, w1) -> (m ≫= k) w = k a w1.
Proof. unfold mbind, Py_bind. intros ->. reflexivity. Qed.

Lemma Py_bind_raise {A B} (m : Py A) (k : A -> Py B) (w : world) (e : exn) :
  m w = Raise e -> (m ≫= k) w = Raise e.
Proof. unfold mbind, Py_bind. intros ->. reflexivity. Qed.

Lemma Py_bind_lift {A B} (r : result A) (k : A -> Py B) (w : world) :
  (lift r ≫= k) w = match r with Ok a => k a w | Raise e => Raise e end.
Proof. unfold mbind, Py_bind, lift. destruct r; reflexivity. Qed.

Lemma files_write_eq (path : string) (f : file) (w : world) :
  files (write_file path f w) !! path = Some f.
Proof. unfold write_file. cbn [files]. apply lookup_insert_eq. Qed.

Lemma slice_bound_zero (len : Z) : 0 <= len -> slice_bound 0 len = 0.
Proof. unfold slice_bound. rewrite Z.ltb_irrefl. lia. Qed.

Lemma slice_bound_inside (i len : Z) : 0 <= i <= len -> slice_bound i len = i.
Proof.
  unfold slice_bound. intros Hi.
  destruct (i <? 0) eqn:E; [apply Z.ltb_lt in E; lia | lia].
Qed.

Section MatchTemplate.
Context `{OpenCV}.
Import MatchScreenshot.

Lemma load_image_url (url : string) (w : world) :
  String.prefix "http" url = true ->
  load_image url w =
  match remote w !! url with
  | Some f => Ok (decode f, write_file "/tmp/feedbucket_template.jpg" f w)
  | None => Raise (URLError url)
  end.
Proof.
  intros Hp. unfold load_image. rewrite Hp.
  unfold download_image, urlretrieve, mbind, Py_bind, mret, Py_ret.
  destruct (remote w !! url) as [f|]; [|reflexivity].
  rewrite cv2_imread_eq, files_write_eq. reflexivity.
Qed.

Lemma load_image_path (path : string) (w : world) :
  String.prefix "http" path = false ->
  load_image path w = Ok (files w !! path ≫= decode, w).
Proof. intros Hp. unfold load_image. rewrite Hp. reflexivity. Qed.

Lemma load_image_served (t : string) (w : world) (img : image bgr) :
  served w t ≫= decode = Some img ->
  load_image t w = Ok (Some img, fetched "/tmp/feedbucket_template.jpg" w t).
Proof.
  unfold served, fetched. intros Hs.
  destruct (String.prefix "http" t) eqn:Hp.
  - rewrite load_image_url by exact Hp.
    destruct (remote w !! t) as [f|]; [|discriminate].
    simpl in Hs. rewrite Hs. reflexivity.
  - rewrite load_image_path by exact Hp. rewrite Hs. reflexivity.
Qed.

Lemma scale_full_page_nonempty (full page : image bgr) (vw vh : option Z) :
  is_empty full = false ->
  scale_full_page full vw vh = Ok page -> is_empty page = false.
Proof.
  intros Hne. unfold scale_full_page.
  destruct (int_truthy vw && int_truthy vh); [|intros [= <-]; exact Hne].
  intros E. apply bind_Ok in E as (sc & _ & E). apply bind_Ok in E as (nh & _ & E).
  unfold cv2_resize in E.
  destruct (is_empty full || (default 0 vw <=? 0) || (nh <=? 0)) eqn:Hc;
    [discriminate|].
  injection E as <-.
  apply orb_false_iff in Hc as [Hc Hc2]. apply orb_false_iff in Hc as [_ Hc1].
  unfold is_empty. cbn [height width]. rewrite Hc1, Hc2. reflexivity.
Qed.

(** With both images decoded, [match_template] is the rescaling, the
    sweep and one of the two ways of writing the output. *)
Lemma match_template_loaded (fp t out : string) (vw vh : option Z)
    (w : world) (full template : image bgr) :
  files w !! fp ≫= decode = Some full ->
  served w t ≫= decode = Some template ->
  match_template fp t out vw vh w =
  (page ← lift (scale_full_page full vw vh);
   st ← lift (sweep_loop (map_image luminance page) (map_image luminance template)
                (width template) (height template) (width page) (height page)
                sweep_init tmpl_scales);
   if low_confidence st then
     fallback_crop page (width template) (height template) out (best_val st)
   else extract_region page (width template) (height template) out st)
    (fetched "/tmp/feedbucket_template.jpg" w t).
Proof.
  intros Hf Ht. unfold match_template.
  erewrite Py_bind_eq by (rewrite cv2_imread_eq, Hf; reflexivity).
  erewrite Py_bind_eq by (apply load_image_served; exact Ht).
  unfold shape. rewrite !Py_bind_lift.
  destruct (scale_full_page full vw vh) as [page|e] eqn:Hpage; [|reflexivity].
  assert (Hne : is_empty page = false).
  { eapply scale_full_page_nonempty; [|exact Hpage]. eapply read_nonempty; eauto. }
  assert (Hnt : is_empty template = false) by (eapply read_nonempty; eauto).
  rewrite !Py_bind_lift. unfold cv2_cvtColor_gray at 1. rewrite Hne.
  rewrite !Py_bind_lift. unfold cv2_cvtColor_gray at 1. rewrite Hnt.
  rewrite !Py_bind_lift. reflexivity.
Qed.

(** Which scale the sweep ended on, without assuming anything of the scores. *)
Lemma sweep_loop_origin (full_gray tmpl_gray : image Z)
    (tmpl_w tmpl_h scaled_w scaled_h : Z) (scales : list float) :
  forall st st',
    sweep_loop full_gray tmpl_gray tmpl_w tmpl_h scaled_w scaled_h st scales = Ok st' ->
    st' = st \/
    exists s t, In s scales /\
      attempt full_gray tmpl_gray tmpl_w tmpl_h scaled_w scaled_h s = Ok (Some t) /\
      st' = record_of s t.
Proof.
  induction scales as [|s rest IH]; intros st st' E; simpl in E.
  - injection E as <-. left. reflexivity.
  - apply bind_Ok in E as (st1 & Hb & E).
    rewrite sweep_body_attempt in Hb. apply bind_Ok in Hb as (o & Ho & Hb).
    destruct (IH st1 st' E) as [->|(s0 & t0 & Hin & Ht0 & ->)].
    + destruct o as [t|]; [|injection Hb as <-; left; reflexivity].
      destruct (Py64.ltb (num_float (best_val st)) (t_val t));
        injection Hb as <-; [right|left; reflexivity].
      exists s, t. split; [left; reflexivity|]. split; [exact Ho|reflexivity].
    + right. exists s0, t0. split; [right; exact Hin|].
      split; [exact Ht0|reflexivity].
Qed.

(** A sweep in which every scale is skipped leaves the state as it was. *)
Lemma sweep_loop_all_skipped (full_gray tmpl_gray : image Z)
    (tmpl_w tmpl_h scaled_w scaled_h : Z) (scales : list float) (st : sweep) :
  Forall (fun s => exists a b,
            scaled_dim tmpl_w s = Ok a /\ scaled_dim tmpl_h s = Ok b /\
            skip_scale a b scaled_w scaled_h = true) scales ->
  sweep_loop full_gray tmpl_gray tmpl_w tmpl_h scaled_w scaled_h st scales = Ok st.
Proof.
  induction 1 as [|s rest (a & b & Ha & Hb & Hs) _ IH]; [reflexivity|].
  cbn [sweep_loop]. unfold sweep_body. rewrite Ha, Hb. simpl. rewrite Hs.
  simpl. exact IH.
Qed.

Lemma crop_top_left (page : image bgr) (a b : Z) :
  0 <= a <= height page -> 0 <= b <= width page ->
  crop page 0 a 0 b = Image a b (fun y x => px page y x).
Proof.
  intros Ha Hb. unfold crop.
  rewrite !slice_bound_zero by lia.
  rewrite (slice_bound_inside a), (slice_bound_inside b) by lia.
  f_equal; lia.
Qed.

Lemma cv2_imwrite_nonempty (out : string) (img : image bgr) (w : world) :
  is_empty img = false -> cv2_imwrite out img w = after_imwrite out tt img w.
Proof.
  intros Hne. unfold cv2_imwrite, after_imwrite. rewrite Hne.
  destruct (has_encoder out), (can_write out); reflexivity.
Qed.

Lemma after_imwrite_Ok {A} (out : string) (a b : A) (img : image bgr) (w w' : world) :
  after_imwrite out a img w = Ok (b, w') ->
  has_encoder out = true /\ b = a /\
  w' = (if can_write out then write_file out (Picture (stored out img)) w else w).
Proof.
  unfold after_imwrite. destruct (has_encoder out); [|discriminate].
  intros [= <- <-]. repeat split.
Qed.

Lemma fallback_crop_run (page : image bgr) (tw th : Z) (out : string)
    (bv : num) (w : world) :
  is_empty page = false -> 0 < tw -> 0 < th ->
  fallback_crop page tw th out bv w =
  after_imwrite out
    [ ("success", VBool true);
      ("confidence", if num_truthy bv then value_of_num bv else VInt 0);
      ("fallback", VBool true);
      ("output", VStr out) ]
    (Image (Z.min th (height page)) (Z.min tw (width page))
           (fun y x => px page y x)) w.
Proof.
  intros Hne Htw Hth. apply is_empty_false in Hne as [Hh Hw].
  unfold fallback_crop, shape.
  rewrite crop_top_left by lia.
  unfold mbind, Py_bind.
  rewrite cv2_imwrite_nonempty by (apply is_empty_false; cbn [height width]; lia).
  unfold after_imwrite. destruct (has_encoder out); reflexivity.
Qed.

(** The region of a match found by an attempt is written at the template's
    size. *)
Lemma extract_region_run (Hin : peak_inside) (page template : image bgr)
    (out : string) (s : float) (t : trial) (w : world) :
  is_empty template = false ->
  attempt (map_image luminance page) (map_image luminance template)
    (width template) (height template) (width page) (height page) s = Ok (Some t) ->
  exists img,
    width img = width template /\ height img = height template /\
    extract_region page (width template) (height template) out (record_of s t) w =
    after_imwrite out (match_record s t out) img w.
Proof.
  intros Hne Ht. apply is_empty_false in Hne as [Hth Htw].
  apply attempt_fits in Ht as (Ha & Hb & Hw & Hh & r & Hr & Hrw & Hrh & Hp).
  assert (Hloc : 0 <= fst (t_loc t) <= width page - t_w t /\
                 0 <= snd (t_loc t) <= height page - t_h t).
  { unfold cv2_match_peak in Hp.
    destruct (is_empty (map_image luminance page) || is_empty r); [discriminate|].
    cbn [map_image height width] in Hp. rewrite Hrw, Hrh in Hp.
    destruct ((height page <? t_h t) || (width page <? t_w t)) eqn:Hsw.
    { apply orb_true_iff in Hsw as [Hsw|Hsw]; apply Z.ltb_lt in Hsw; lia. }
    injection Hp as Hp.
    assert (Hi : width r <= width (map_image luminance page) ->
                 height r <= height (map_image luminance page) -> _)
      by exact (Hin (map_image luminance page) r).
    rewrite Hp in Hi. cbn [fst snd map_image height width] in Hi.
    rewrite Hrw, Hrh in Hi. apply Hi; lia. }
  destruct (t_loc t) as [x y] eqn:Hxy. cbn [fst snd] in Hloc.
  eexists (Image (height template) (width template) _).
  split; [reflexivity|]. split; [reflexivity|].
  unfold extract_region, shape, record_of. cbn [best_loc best_scale best_val].
  rewrite Hxy. cbn [unpack]. rewrite !Py_bind_lift. rewrite Ha.
  rewrite !Py_bind_lift. rewrite Hb. rewrite !Py_bind_lift.
  unfold cv2_resize at 1.
  assert (Hc : is_empty (crop page y (Z.min (y + t_h t) (height page))
                           x (Z.min (x + t_w t) (width page))) = false).
  { apply is_empty_false. unfold crop. cbn [height width].
    rewrite (slice_bound_inside y), (slice_bound_inside x) by lia.
    rewrite !slice_bound_inside by lia. lia. }
  rewrite Hc. cbn [orb].
  destruct (width template <=? 0) eqn:E1; [apply Z.leb_le in E1; lia|].
  destruct (height template <=? 0) eqn:E2; [apply Z.leb_le in E2; lia|].
  cbn [orb]. unfold mbind, Py_bind.
  rewrite cv2_imwrite_nonempty by (apply is_empty_false; cbn [height width]; lia).
  unfold after_imwrite, match_record. rewrite Hxy.
  destruct (has_encoder out); reflexivity.
Qed.

End MatchTemplate.

(** ** What [match_template] writes and returns *)

Section MatchTemplateClaims.
Context `{OpenCV}.
Import MatchScreenshot.

Lemma load_image_Ok (t : string) (w w1 : world) (o : option (image bgr)) :
  load_image t w = Ok (o, w1) ->
  o = served w t ≫= decode /\ w1 = fetched "/tmp/feedbucket_template.jpg" w t.
Proof.
  unfold served, fetched. destruct (String.prefix "http" t) eqn:Hp.
  - rewrite load_image_url by exact Hp.
    destruct (remote w !! t) as [f|]; [|discriminate].
    intros [= <- <-]. split; reflexivity.
  - rewrite load_image_path by exact Hp. intros [= <- <-]. split; reflexivity.
Qed.

(** The three ways a run of [match_template] can go once the template was
    fetched. *)
Lemma match_template_cases (fp t out : string) (vw vh : option Z)
    (w w' : world) (r : dict) :
  match_template fp t out vw vh w = Ok (r, w') ->
  (files w !! fp ≫= decode = None /\
   r = load_error "Could not load full page image: " fp) \/
  (served w t ≫= decode = None /\
   r = load_error "Could not load template image: " t) \/
  (exists full template,
     files w !! fp ≫= decode = Some full /\
     served w t ≫= decode = Some template).
Proof.
  unfold match_template. intros E.
  apply Py_bind_Ok in E as (full & w0 & Hf & E).
  rewrite cv2_imread_eq in Hf. injection Hf as <- <-.
  apply Py_bind_Ok in E as (tpl & w1 & Ht & E).
  apply load_image_Ok in Ht as [-> ->].
  destruct (files w !! fp ≫= decode) as [full|].
  - destruct (served w t ≫= decode) as [template|].
    + right. right. eauto.
    + right. left. injection E as <- _. split; reflexivity.
  - left. injection E as <- _. split; reflexivity.
Qed.

Lemma attempt_peak (full_gray tmpl_gray : image Z)
    (tmpl_w tmpl_h scaled_w scaled_h : Z) (s : float) (t : trial) :
  attempt full_gray tmpl_gray tmpl_w tmpl_h scaled_w scaled_h s = Ok (Some t) ->
  exists img tpl, t_val t = fst (correlation_peak img tpl).
Proof.
  unfold attempt. intros E.
  apply bind_Ok in E as (a & _ & E). apply bind_Ok in E as (b & _ & E).
  destruct (skip_scale a b scaled_w scaled_h); [discriminate|].
  apply bind_Ok in E as (r & _ & E). apply bind_Ok in E as (p & Hp & E).
  injection E as <-. cbn [t_val].
  unfold cv2_match_peak in Hp.
  repeat match type of Hp with
  | (if ?c then _ else _) = _ => destruct c
  end; try discriminate; injection Hp as <-; eauto.
Qed.

Lemma extract_region_confidence (page : image bgr) (tw th : Z) (out : string)
    (st : sweep) (w w' : world) (r : dict) :
  extract_region page tw th out st w = Ok (r, w') ->
  dict_get r "confidence" = Some (value_of_num (best_val st)) /\
  dict_has r "fallback" = false.
Proof.
  unfold extract_region, shape. intros E.
  apply Py_bind_Ok in E as ([x y] & w1 & _ & E).
  apply Py_bind_Ok in E as (a & w2 & _ & E).
  apply Py_bind_Ok in E as (b & w3 & _ & E).
  apply Py_bind_Ok in E as (img & w4 & _ & E).
  apply Py_bind_Ok in E as (u & w5 & _ & E).
  injection E as <- _. split; reflexivity.
Qed.

(** C1 (as amended): with both images decoded and no library call of the
    rescaling or the sweep raising, [match_template] hands an image to
    [cv2.imwrite] for the output path: the run raises [cv2.error] when the
    output name has no encoder, and otherwise returns the record, the file
    at the output path holding the encoding of that image whenever the path
    can be written.  On the best-match path the image has the template's
    width and height, on the fallback path the smaller of the template's
    and the (possibly rescaled) page's in each dimension; its encoding has
    the same size. *)
Theorem match_template_output_size (Hin : peak_inside)
    (fp t out : string) (vw vh : option Z) (w : world)
    (full template page : image bgr) (st : sweep) :
  files w !! fp ≫= decode = Some full ->
  served w t ≫= decode = Some template ->
  scale_full_page full vw vh = Ok page ->
  sweep_loop (map_image luminance page) (map_image luminance template)
    (width template) (height template) (width page) (height page)
    sweep_init tmpl_scales = Ok st ->
  exists r img,
    match_template fp t out vw vh w =
      (if has_encoder out then
         Ok (r, if can_write out
                then write_file out (Picture (stored out img))
                       (fetched "/tmp/feedbucket_template.jpg" w t)
                else fetched "/tmp/feedbucket_template.jpg" w t)
       else Raise (CvError "imwrite")) /\
    (dict_has r "fallback" = false ->
     width (stored out img) = width template /\
     height (stored out img) = height template) /\
    (dict_has r "fallback" = true ->
     width (stored out img) = Z.min (width template) (width page) /\
     height (stored out img) = Z.min (height template) (height page)).
Proof.
  intros Hf Ht Hpage Hsweep.
  assert (Hnt : is_empty template = false) by (eapply read_nonempty; eauto).
  assert (Hnp : is_empty page = false).
  { eapply scale_full_page_nonempty; [|exact Hpage]. eapply read_nonempty; eauto. }
  rewrite (match_template_loaded _ _ _ _ _ _ _ _ Hf Ht).
  rewrite Py_bind_lift, Hpage, Py_bind_lift, Hsweep.
  destruct (low_confidence st) eqn:Hlow.
  - apply is_empty_false in Hnt as [Hth Htw].
    rewrite fallback_crop_run by assumption.
    eexists _, _. split; [reflexivity|]. cbn [stored width height].
    split; [|intros _; split; reflexivity].
    intros Hno. exfalso. revert Hno.
    destruct (num_truthy (best_val st)); discriminate.
  - apply sweep_loop_origin in Hsweep as [->|(s & tr & _ & Htr & ->)];
      [discriminate Hlow|].
    destruct (extract_region_run Hin page template out s tr
                (fetched "/tmp/feedbucket_template.jpg" w t) Hnt Htr)
      as (img & Hw & Hh & ->).
    exists (match_record s tr out), img. split; [reflexivity|].
    cbn [stored width height].
    split; [intros _; split; assumption|]. discriminate.
Qed.

(** C2 (as amended): when the resized template exceeds the (possibly
    rescaled) page in width or height at every scale of the sweep and the
    output name has an encoder, [match_template] raises nothing and returns
    a record with [success] and [fallback] both true; the image it hands to
    [cv2.imwrite] is the top left crop of the page, [min] of the template's
    and the page's height high and [min] of their widths wide, and the file
    at the output path holds the encoding of that crop whenever the path
    can be written (the files are unchanged otherwise). *)
Theorem match_template_no_viable_scale
    (fp t out : string) (vw vh : option Z) (w : world)
    (full template page : image bgr) :
  files w !! fp ≫= decode = Some full ->
  served w t ≫= decode = Some template ->
  scale_full_page full vw vh = Ok page ->
  forallb (exceeds_page (width template) (height template)
             (width page) (height page)) tmpl_scales = true ->
  has_encoder out = true ->
  exists r cropped,
    match_template fp t out vw vh w =
      Ok (r, if can_write out
             then write_file out (Picture (stored out cropped))
                    (fetched "/tmp/feedbucket_template.jpg" w t)
             else fetched "/tmp/feedbucket_template.jpg" w t) /\
    dict_get r "fallback" = Some (VBool true) /\
    dict_get r "success" = Some (VBool true) /\
    height cropped = Z.min (height template) (height page) /\
    width cropped = Z.min (width template) (width page) /\
    forall y x, px cropped y x = px page y x.
Proof.
  intros Hf Ht Hpage Hall Henc.
  assert (Hnt : is_empty template = false) by (eapply read_nonempty; eauto).
  assert (Hnp : is_empty page = false).
  { eapply scale_full_page_nonempty; [|exact Hpage]. eapply read_nonempty; eauto. }
  rewrite (match_template_loaded _ _ _ _ _ _ _ _ Hf Ht).
  rewrite Py_bind_lift, Hpage, Py_bind_lift.
  rewrite sweep_loop_all_skipped.
  - apply is_empty_false in Hnt as [Hth Htw].
    change (low_confidence sweep_init) with true. cbv iota.
    rewrite fallback_crop_run by assumption.
    unfold after_imwrite. rewrite Henc.
    eexists _, _. split; [reflexivity|]. cbn [height width px].
    repeat split; reflexivity.
  - apply List.Forall_forall. intros s Hs.
    rewrite forallb_forall in Hall. specialize (Hall s Hs).
    unfold exceeds_page in Hall.
    destruct (scaled_dim (width template) s) as [a|]; [|discriminate].
    destruct (scaled_dim (height template) s) as [b|]; [|discriminate].
    exists a, b. split; [reflexivity|]. split; [reflexivity|].
    unfold skip_scale. apply orb_true_iff.
    apply orb_true_iff in Hall as [Hx|Hx]; apply Z.ltb_lt in Hx;
      [left|right]; apply Z.geb_le; lia.
Qed.

Lemma skip_scale_iff (a b scaled_w scaled_h : Z) :
  skip_scale a b scaled_w scaled_h = true <-> scaled_w <= a \/ scaled_h <= b.
Proof. unfold skip_scale. rewrite orb_true_iff, !Z.geb_le. tauto. Qed.

(** A resized template exactly as wide as the page is skipped as well. *)
Lemma sweep_body_equal_width (full_gray tmpl_gray : image Z)
    (tmpl_w tmpl_h scaled_w scaled_h b : Z) (st : sweep) (s : float) :
  scaled_dim tmpl_w s = Ok scaled_w ->
  scaled_dim tmpl_h s = Ok b ->
  sweep_body full_gray tmpl_gray tmpl_w tmpl_h scaled_w scaled_h st s = Ok st.
Proof.
  intros Ha Hb. unfold sweep_body. rewrite Ha, Hb. cbn [mbind result_bind].
  unfold skip_scale. rewrite (proj2 (Z.geb_le scaled_w scaled_w)) by lia.
  reflexivity.
Qed.

(** C3 (the code at a failing input): a template 100 wide and 50 high
    against a page 100 wide and 200 high.  At scale 1.0 the resized
    template is 100 by 50, not larger than the page in either dimension,
    and yet the scale is skipped: the loop body leaves the state as it is
    whatever the matcher would answer. *)
Theorem scale_of_equal_width_is_skipped (full_gray tmpl_gray : image Z) (st : sweep) :
  scaled_dim 100 (Py64.lit 10 10) = Ok 100 /\
  scaled_dim 50 (Py64.lit 10 10) = Ok 50 /\
  (100 <= 100 /\ 50 <= 200) /\
  attempt full_gray tmpl_gray 100 50 100 200 (Py64.lit 10 10) = Ok None /\
  sweep_body full_gray tmpl_gray 100 50 100 200 st (Py64.lit 10 10) = Ok st.
Proof.
  split; [reflexivity|]. split; [reflexivity|]. split; [lia|].
  split; reflexivity.
Qed.

(** C4: the record of a match comes from one scale of the sweep, whose
    score no tried scale exceeds and every earlier tried scale stays
    strictly below; so among tried scales with equal best scores the first
    in iteration order gives the location, the size and [template_scale]. *)
Theorem match_template_first_best (Hn : scores_not_nan)
    (fp t out : string) (vw vh : option Z) (w w' : world)
    (full template : image bgr) (r : dict) :
  files w !! fp ≫= decode = Some full ->
  served w t ≫= decode = Some template ->
  match_template fp t out vw vh w = Ok (r, w') ->
  dict_has r "fallback" = false ->
  exists page pre s post tr,
    scale_full_page full vw vh = Ok page /\
    tmpl_scales = (pre ++ s :: post)%list /\
    let try := attempt (map_image luminance page) (map_image luminance template)
                 (width template) (height template) (width page) (height page) in
    try s = Ok (Some tr) /\
    r = match_record s tr out /\
    (forall s' tr', In s' tmpl_scales -> try s' = Ok (Some tr') ->
                    Py64.leb (t_val tr') (t_val tr) = true) /\
    (forall s' tr', In s' pre -> try s' = Ok (Some tr') ->
                    Py64.ltb (t_val tr') (t_val tr) = true) /\
    (forall s' tr', In s' tmpl_scales -> try s' = Ok (Some tr') ->
                    SFeqb (t_val tr') (t_val tr) = true -> In s' (s :: post)).
Proof.
  intros Hf Ht E Hno.
  assert (Hnt : is_empty template = false) by (eapply read_nonempty; eauto).
  rewrite (match_template_loaded _ _ _ _ _ _ _ _ Hf Ht) in E.
  rewrite Py_bind_lift in E.
  destruct (scale_full_page full vw vh) as [page|] eqn:Hpage; [|discriminate].
  rewrite Py_bind_lift in E.
  destruct (sweep_loop _ _ _ _ _ _ _ _) as [st|] eqn:Hsweep; [|discriminate].
  assert (Hnp : is_empty page = false).
  { eapply scale_full_page_nonempty; [|exact Hpage]. eapply read_nonempty; eauto. }
  destruct (low_confidence st) eqn:Hlow.
  { apply is_empty_false in Hnt as [Hth Htw].
    rewrite fallback_crop_run in E by assumption.
    apply after_imwrite_Ok in E as (_ & -> & _).
    exfalso. revert Hno. destruct (num_truthy (best_val st)); discriminate. }
  apply sweep_loop_spec in Hsweep
    as [[-> _]|(pre & s & post & tr & Hsplit & Htr & -> & _ & Hpre & Hpost)];
    [discriminate Hlow| |exact Hn|reflexivity].
  exists page, pre, s, post, tr.
  split; [reflexivity|]. split; [exact Hsplit|]. cbv zeta.
  split; [exact Htr|].
  assert (Hself : forall tr', attempt (map_image luminance page)
              (map_image luminance template) (width template) (height template)
              (width page) (height page) s = Ok (Some tr') -> tr' = tr)
    by (intros tr' Htr'; congruence).
  split.
  { apply extract_region_confidence in E as Hc.
    unfold extract_region, shape, record_of in E.
    cbn [best_loc best_scale best_val unpack] in E.
    apply attempt_fits in Htr as (Ha & Hb & _).
    rewrite !Py_bind_lift in E. destruct (t_loc tr) as [x y] eqn:Hxy.
    rewrite !Py_bind_lift, Ha in E. rewrite !Py_bind_lift, Hb in E.
    rewrite !Py_bind_lift in E.
    destruct (cv2_resize _ _ _) as [img|]; [|discriminate].
    apply Py_bind_Ok in E as (u & w1 & _ & E). injection E as <- _.
    unfold match_record. rewrite Hxy. reflexivity. }
  split.
  { intros s' tr' Hin' Htr'. rewrite Hsplit in Hin'.
    apply in_app_or in Hin' as [Hin'|[<-|Hin']].
    - apply FloatOrder.ltb_leb. eauto.
    - rewrite (Hself _ Htr'). apply FloatOrder.not_ltb_leb;
        try (eapply attempt_not_nan; eauto).
      destruct (Py64.ltb (t_val tr) (t_val tr)) eqn:Hl; [|reflexivity].
      apply FloatOrder.ltb_not_leb in Hl as Hl'.
      apply FloatOrder.ltb_leb in Hl. congruence.
    - eauto. }
  split; [exact Hpre|].
  intros s' tr' Hin' Htr' Heq. rewrite Hsplit in Hin'.
  apply in_app_or in Hin' as [Hin'|Hin']; [|exact Hin'].
  apply (Hpre _ _ Hin') in Htr'. apply FloatOrder.ltb_not_eqb in Htr'. congruence.
Qed.

(** C5 (as amended): with correlation scores between -1 and 1, every
    [confidence] in a record [match_template] returns lies between -1.0
    and 1.0, and in a best-match record it is at least 0.3. *)
Theorem match_template_confidence_range (Hb : scores_bounded)
    (fp t out : string) (vw vh : option Z) (w w' : world) (r : dict) (c : value) :
  match_template fp t out vw vh w = Ok (r, w') ->
  dict_get r "confidence" = Some c ->
  value_between (Py64.of_int (-1)) (Py64.of_int 1) c = true /\
  (dict_has r "fallback" = false ->
   value_between (Py64.lit 3 10) (Py64.of_int 1) c = true).
Proof.
  intros E Hc.
  destruct (match_template_cases _ _ _ _ _ _ _ _ E)
    as [[_ ->]|[[_ ->]|(full & template & Hf & Ht)]]; [discriminate..|].
  assert (Hnt : is_empty template = false) by (eapply read_nonempty; eauto).
  rewrite (match_template_loaded _ _ _ _ _ _ _ _ Hf Ht) in E.
  rewrite Py_bind_lift in E.
  destruct (scale_full_page full vw vh) as [page|] eqn:Hpage; [|discriminate].
  rewrite Py_bind_lift in E.
  destruct (sweep_loop _ _ _ _ _ _ _ _) as [st|] eqn:Hsweep; [|discriminate].
  assert (Hnp : is_empty page = false).
  { eapply scale_full_page_nonempty; [|exact Hpage]. eapply read_nonempty; eauto. }
  assert (Hst : st = sweep_init \/
            exists v, best_val st = NFloat v /\ is_Some_b (best_match st) = true /\
              Py64.leb (Py64.of_int (-1)) v = true /\
              Py64.leb v (Py64.of_int 1) = true).
  { apply sweep_loop_origin in Hsweep as [->|(s & tr & _ & Htr & ->)];
      [left; reflexivity|right].
    apply attempt_peak in Htr as (img & tpl & Hv).
    exists (t_val tr). split; [reflexivity|]. split; [reflexivity|].
    rewrite Hv. apply Hb. }
  destruct (low_confidence st) eqn:Hlow.
  - apply is_empty_false in Hnt as [Hth Htw].
    rewrite fallback_crop_run in E by assumption.
    apply after_imwrite_Ok in E as (_ & -> & _).
    split; [|discriminate].
    cbn in Hc. injection Hc as <-.
    destruct Hst as [->|(v & -> & _ & Hlo & Hhi)]; [reflexivity|].
    cbn [num_truthy value_of_num].
    destruct (Py64.is_zero v); cbn [negb]; [reflexivity|].
    cbn [value_between]. rewrite Hlo, Hhi. reflexivity.
  - apply extract_region_confidence in E as [Hc' Hno].
    rewrite Hc' in Hc. injection Hc as <-.
    destruct Hst as [->|(v & Hv & _ & Hlo & Hhi)]; [discriminate Hlow|].
    unfold low_confidence in Hlow. apply orb_false_iff in Hlow as [_ Hlow].
    rewrite Hv in *. cbn [value_of_num value_between num_float] in *.
    rewrite Hlo, Hhi. split; [reflexivity|]. intros _.
    rewrite FloatOrder.not_ltb_leb; [reflexivity| |reflexivity|exact Hlow].
    eapply FloatOrder.leb_not_nan_r; exact Hlo.
Qed.

End MatchTemplateClaims.

(** ** Counting pixels *)

Lemma in_range (n y : Z) : In y (range n) <-> 0 <= y < n.
Proof.
  unfold range. rewrite in_map_iff. split.
  - intros (k & <- & Hk). apply in_seq in Hk. lia.
  - intros Hy. exists (Z.to_nat y). split; [lia|]. apply in_seq. lia.
Qed.

Lemma map_flat_map {A B C} (f : B -> C) (g : A -> list B) (l : list A) :
  map f (flat_map g l) = flat_map (fun a => map f (g a)) l.
Proof.
  induction l as [|a l IH]; [reflexivity|].
  cbn [flat_map]. rewrite map_app, IH. reflexivity.
Qed.

Lemma np_sum_zero (l : list Z) : (forall v, In v l -> v = 0) -> np_sum l = 0.
Proof.
  induction l as [|v l IH]; intros Hz; [reflexivity|].
  cbn [np_sum fold_right]. fold (np_sum l).
  rewrite (Hz v) by (left; reflexivity). rewrite IH; [reflexivity|].
  intros u Hu. apply Hz. right. exact Hu.
Qed.

Lemma filter_none {A} (f : A -> bool) (l : list A) :
  (forall a, In a l -> f a = false) -> List.filter f l = [].
Proof.
  induction l as [|a l IH]; intros Hf; [reflexivity|].
  cbn [List.filter]. rewrite (Hf a) by (left; reflexivity).
  apply IH. intros b Hb. apply Hf. right. exact Hb.
Qed.

Lemma np_sum_indicator {A} (f : A -> Z) (l : list A) :
  np_sum (map (fun v => if v <? 50 then 1 else 0) (map f l)) =
  Z.of_nat (length (List.filter (fun a => f a <? 50) l)).
Proof.
  induction l as [|a l IH]; [reflexivity|].
  cbn [map np_sum fold_right List.filter].
  fold (np_sum (map (fun v => if v <? 50 then 1 else 0) (map f l))).
  rewrite IH. destruct (f a <? 50); cbn [length]; lia.
Qed.

Section Pixels.
Context `{OpenCV}.

Lemma in_coords (rows cols : Z) (p : Z * Z) :
  In p (coords rows cols) <-> (0 <= fst p < rows /\ 0 <= snd p < cols).
Proof.
  unfold coords. rewrite in_flat_map. split.
  - intros (y & Hy & Hp). apply in_map_iff in Hp as (x & <- & Hx).
    apply in_range in Hy. apply in_range in Hx. cbn [fst snd]. lia.
  - intros [Hy Hx]. exists (fst p). split; [apply in_range; exact Hy|].
    apply in_map_iff. exists (snd p). split; [destruct p; reflexivity|].
    apply in_range. exact Hx.
Qed.

Lemma pixels_coords {A} (img : image A) :
  pixels img =
  map (fun p => px img (fst p) (snd p)) (coords (height img) (width img)).
Proof.
  unfold pixels, coords. rewrite map_flat_map.
  apply flat_map_ext. intros y. rewrite map_map. reflexivity.
Qed.

(** The top region in grey is the luminance of the first rows. *)
Lemma top_region_gray (img : image bgr) :
  is_empty img = false ->
  map_image luminance (crop_rows img 0 (Z.min 100 (height img))) = top_gray img.
Proof.
  intros Hne. apply is_empty_false in Hne as [Hh Hw].
  unfold map_image, crop_rows, top_gray, top_rows. cbn [height width px].
  rewrite slice_bound_zero by lia. rewrite slice_bound_inside by lia.
  f_equal. lia.
Qed.

Lemma count_dark_top (img : image bgr) :
  SmartCapture.count_dark (top_gray img) = dark_count img.
Proof.
  unfold SmartCapture.count_dark, dark_count. rewrite pixels_coords.
  cbn [top_gray height width px]. apply np_sum_indicator.
Qed.

Lemma header_heuristic_eq (img : image bgr) :
  is_empty img = false ->
  SmartCapture.header_heuristic img = Ok (header_test img).
Proof.
  intros Hne. unfold SmartCapture.header_heuristic, shape.
  assert (Ht : is_empty (crop_rows img 0 (Z.min 100 (height img))) = false).
  { apply is_empty_false in Hne as [Hh Hw]. apply is_empty_false.
    unfold crop_rows. cbn [height width].
    rewrite slice_bound_zero by lia. rewrite slice_bound_inside by lia. lia. }
  unfold cv2_cvtColor_gray. rewrite Ht. rewrite (top_region_gray img Hne).
  cbn [mbind result_bind].
  assert (Hg : is_empty (top_gray img) = false).
  { rewrite <- (top_region_gray img Hne). exact Ht. }
  unfold cv2_Canny. rewrite Hg. cbn [mbind result_bind mret result_ret].
  rewrite count_dark_top, pixels_coords. reflexivity.
Qed.

(** Nothing dark and no edge: both measures are quotients of zero. *)
Lemma header_test_blank (img : image bgr) :
  (forall y x, 0 <= y < top_rows img -> 0 <= x < width img ->
     50 <= luminance (px img y x) /\ canny_map (top_gray img) 50 150 y x = 0) ->
  header_test img = false.
Proof.
  intros Hblank. unfold header_test, dark_fraction, edge_density.
  assert (Hd : dark_count img = 0).
  { unfold dark_count.
    rewrite filter_none; [reflexivity|].
    intros p Hp. apply in_coords in Hp as [Hy Hx].
    apply Z.ltb_ge. apply Hblank; assumption. }
  assert (He : edge_sum img = 0).
  { unfold edge_sum. apply np_sum_zero. intros v Hv.
    apply in_map_iff in Hv as (p & <- & Hp). apply in_coords in Hp as [Hy Hx].
    apply Hblank; assumption. }
  rewrite Hd, He. rewrite !FloatOrder.zero_quotient_below; reflexivity.
Qed.

End Pixels.

(** ** smart-capture.py: loading, the header heuristic, the scroll position *)

Section SmartCaptureClaims.
Context `{OpenCV}.
Import SmartCapture.

Lemma download_image_eq (url out : string) (w : world) (f : file) :
  remote w !! url = Some f ->
  download_image url out w = Ok (out, write_file out f w).
Proof.
  intros Hr. unfold download_image, urlretrieve, mbind, Py_bind. rewrite Hr.
  reflexivity.
Qed.

Lemma download_image_raise (url out : string) (w : world) :
  remote w !! url = None -> download_image url out w = Raise (URLError url).
Proof.
  intros Hr. unfold download_image, urlretrieve, mbind, Py_bind. rewrite Hr.
  reflexivity.
Qed.

Lemma pil_open_size_eq (path : string) (w : world) :
  pil_open_size path w =
  match files w !! path ≫= decode with
  | Some img => Ok ((width img, height img), w)
  | None => Raise UnidentifiedImageError
  end.
Proof. reflexivity. Qed.

(** The download step the three loaders share. *)
Lemma fetch_step {A} (temp s : string) (k : string -> Py A) (w : world) :
  ((if String.prefix "http" s then
      _ ← download_image s temp; mret temp
    else mret s) ≫= k) w =
  if String.prefix "http" s then
    match remote w !! s with
    | Some f => k temp (write_file temp f w)
    | None => Raise (URLError s)
    end
  else k s w.
Proof.
  destruct (String.prefix "http" s); [|reflexivity].
  destruct (remote w !! s) as [f|] eqn:Hr.
  - erewrite Py_bind_eq; [reflexivity|].
    erewrite Py_bind_eq by (apply download_image_eq; exact Hr). reflexivity.
  - erewrite Py_bind_raise; [reflexivity|].
    erewrite Py_bind_raise by (apply download_image_raise; exact Hr). reflexivity.
Qed.

Lemma get_image_dimensions_local (p : string) (w : world) :
  (pil_open_size p ≫= fun '(img_width, img_height) =>
     mret [ ("width", VInt img_width); ("height", VInt img_height) ]) w =
  lift (dimensions_of (files w !! p ≫= decode)) w.
Proof.
  unfold mbind at 1, Py_bind. rewrite pil_open_size_eq.
  destruct (files w !! p ≫= decode); reflexivity.
Qed.

Lemma get_image_dimensions_resolve (s : string) (w : world) :
  get_image_dimensions s w = resolve "/tmp/feedbucket_check.jpg" dimensions_of s w.
Proof.
  unfold get_image_dimensions, resolve. rewrite fetch_step.
  destruct (String.prefix "http" s).
  - destruct (remote w !! s) as [f|]; [|reflexivity].
    rewrite get_image_dimensions_local, files_write_eq. reflexivity.
  - apply get_image_dimensions_local.
Qed.

Lemma detect_header_visible_local (p : string) (w : world) :
  (cv2_imread p ≫= fun img =>
     match img with
     | None => mret true
     | Some img => lift (header_heuristic img)
     end) w =
  lift (header_of (files w !! p ≫= decode)) w.
Proof.
  erewrite Py_bind_eq by apply cv2_imread_eq.
  destruct (files w !! p ≫= decode); reflexivity.
Qed.

Lemma detect_header_visible_resolve (s : string) (threshold : Z) (w : world) :
  detect_header_visible s threshold w = resolve "/tmp/feedbucket_detect.jpg" header_of s w.
Proof.
  unfold detect_header_visible, resolve. rewrite fetch_step.
  destruct (String.prefix "http" s).
  - destruct (remote w !! s) as [f|]; [|reflexivity].
    rewrite detect_header_visible_local, files_write_eq. reflexivity.
  - apply detect_header_visible_local.
Qed.

Lemma find_scroll_position_resolve (fp t : string) (w : world) :
  find_scroll_position fp t w =
  resolve "/tmp/feedbucket_template.jpg" (position_of (files w !! fp ≫= decode)) t w.
Proof.
  unfold find_scroll_position, resolve.
  erewrite Py_bind_eq by apply cv2_imread_eq.
  destruct (String.prefix "http" t).
  - destruct (remote w !! t) as [f|] eqn:Hr.
    + erewrite Py_bind_eq.
      2:{ erewrite Py_bind_eq by (apply download_image_eq; exact Hr).
          rewrite cv2_imread_eq, files_write_eq. reflexivity. }
      cbn [mbind option_bind].
      destruct (files w !! fp ≫= decode), (decode f); reflexivity.
    + erewrite Py_bind_raise; [reflexivity|].
      erewrite Py_bind_raise by (apply download_image_raise; exact Hr). reflexivity.
  - erewrite Py_bind_eq by apply cv2_imread_eq.
    destruct (files w !! fp ≫= decode), (files w !! t ≫= decode); reflexivity.
Qed.

Lemma resolve_served {A} (temp : string) (k : option (image bgr) -> result A)
    (s : string) (w : world) :
  fetchable w s = true ->
  resolve temp k s w = lift (k (served w s ≫= decode)) (fetched temp w s).
Proof.
  unfold fetchable, resolve, served, fetched.
  destruct (String.prefix "http" s); [|reflexivity].
  destruct (remote w !! s); [reflexivity|discriminate].
Qed.

Lemma served_fetchable (s : string) (w : world) (img : image bgr) :
  served w s ≫= decode = Some img -> fetchable w s = true.
Proof.
  unfold served, fetchable. destruct (String.prefix "http" s); [|reflexivity].
  destruct (remote w !! s); [reflexivity|discriminate].
Qed.

(** C6: for an image that decodes, [detect_header_visible] returns true
    exactly when, over the top [min(100, height)] rows, the share of grey
    pixels below 50 exceeds 0.05 or the edge map summed and divided by the
    number of pixels exceeds 10; with no dark pixel and no edge in that
    region it returns false. *)
Theorem detect_header_visible_spec (s : string) (threshold : Z) (w : world)
    (img : image bgr) :
  served w s ≫= decode = Some img ->
  exists b,
    detect_header_visible s threshold w = Ok (b, fetched "/tmp/feedbucket_detect.jpg" w s) /\
    (b = true <->
     Py64.ltb (Py64.lit 5 100) (dark_fraction img) = true \/
     Py64.ltb (Py64.of_int 10) (edge_density img) = true) /\
    ((forall y x, 0 <= y < Z.min 100 (height img) -> 0 <= x < width img ->
        50 <= luminance (px img y x) /\
        canny_map (top_gray img) 50 150 y x = 0) ->
     b = false).
Proof.
  intros Hs. exists (header_test img).
  rewrite detect_header_visible_resolve.
  rewrite resolve_served by (eapply served_fetchable; exact Hs).
  rewrite Hs. cbn [header_of].
  rewrite header_heuristic_eq by (eapply read_nonempty; exact Hs).
  split; [reflexivity|]. split.
  - unfold header_test. apply orb_true_iff.
  - apply header_test_blank.
Qed.

(** A template of the page's own size is never matched. *)
Lemma locate_template_equal_size (full_page template : image bgr) :
  is_empty full_page = false -> is_empty template = false ->
  shape template = shape full_page ->
  locate_template full_page template = Ok no_position.
Proof.
  unfold shape. intros Hf Ht [= Hh Hw]. unfold locate_template, shape.
  rewrite Hw, Z.eqb_refl. cbn [negb mbind result_bind mret result_ret].
  unfold cv2_cvtColor_gray. rewrite Hf, Ht. cbn [mbind result_bind].
  rewrite Hh, (proj2 (Z.geb_le (height full_page) (height full_page))) by lia.
  reflexivity.
Qed.

(** C7 (the code at a failing input): a template 50 wide and 100 high
    against a full page 100 wide and 200 high.  The widths differ, so the
    template is rescaled to the page's width, to 100 by
    [int(100 * (100 / 50))] = 200.  The rescaled height, 200, does not
    exceed the page's, and yet no matching is run: the answer is the record
    of a skipped match, with confidence 0, whatever the resampling and the
    matcher would give. *)
Theorem find_scroll_position_equal_height :
  files SampleEdge.disk !! "page.png" = Some (Picture Sample.page) /\
  files SampleEdge.disk !! "half.png" = Some (Picture SampleEdge.half) /\
  shape Sample.page = (200, 100) /\
  shape SampleEdge.half = (100, 50) /\
  (50 =? 100) = false /\
  (scale ← py_truediv 100 50; py_int (Py64.mul (Py64.of_int 100) scale)) = Ok 200 /\
  (200 >=? 200) = true /\
  locate_template Sample.page SampleEdge.half = Ok no_position /\
  find_scroll_position "page.png" "half.png" SampleEdge.disk =
    Ok ([ ("scroll_y", VInt 0); ("confidence", VInt 0) ], SampleEdge.disk).
Proof. repeat split; vm_compute; reflexivity. Qed.

Lemma get_image_dimensions_Ok (s : string) (w w1 : world) (d : dict) :
  get_image_dimensions s w = Ok (d, w1) ->
  exists a b, d = [ ("width", VInt a); ("height", VInt b) ].
Proof.
  rewrite get_image_dimensions_resolve. unfold resolve.
  assert (Hk : forall o w0, lift (dimensions_of o) w0 = Ok (d, w1) ->
               exists a b, d = [ ("width", VInt a); ("height", VInt b) ]).
  { intros [img|] w0 E; [|discriminate]. injection E as <- _. eauto. }
  destruct (String.prefix "http" s); [|apply Hk].
  destruct (remote w !! s); [apply Hk|discriminate].
Qed.

(** C8: the record [analyze_capture_requirements] returns holds the image's
    width and height, [header_visible] as the heuristic answered, and
    [capture_type] "viewport" when that answer is true, "scroll_match"
    when false; [scroll_y] and [match_confidence] are present exactly when
    the header is not visible and a full-page path is given (a non-empty
    string), [needs_full_page: true] exactly when the header is not visible
    and none is given. *)
Theorem analyze_capture_requirements_shape
    (url : string) (fp : option string) (w w' : world) (r : dict) :
  analyze_capture_requirements url fp w = Ok (r, w') ->
  exists vw vh hv w1 w2,
    get_image_dimensions url w = Ok ([ ("width", VInt vw); ("height", VInt vh) ], w1) /\
    detect_header_visible url 50 w1 = Ok (hv, w2) /\
    dict_get r "viewport_width" = Some (VInt vw) /\
    dict_get r "viewport_height" = Some (VInt vh) /\
    dict_get r "header_visible" = Some (VBool hv) /\
    dict_get r "capture_type" =
      Some (VStr (if hv then "viewport" else "scroll_match")) /\
    dict_has r "scroll_y" = negb hv && str_truthy fp /\
    dict_has r "match_confidence" = negb hv && str_truthy fp /\
    dict_get r "needs_full_page" =
      (if negb hv && negb (str_truthy fp) then Some (VBool true) else None).
Proof.
  unfold analyze_capture_requirements. intros E.
  apply Py_bind_Ok in E as (dims & w1 & Hd & E).
  apply Py_bind_Ok in E as (hv & w2 & Hh & E).
  destruct (get_image_dimensions_Ok _ _ _ _ Hd) as (vw & vh & ->).
  exists vw, vh, hv, w1, w2. split; [exact Hd|]. split; [exact Hh|].
  apply Py_bind_Ok in E as (dw & w3 & Hdw & E).
  apply lift_Ok in Hdw as [[= <-] ->].
  apply Py_bind_Ok in E as (dh & w4 & Hdh & E).
  apply lift_Ok in Hdh as [[= <-] ->].
  destruct hv; cbn [negb andb] in E |- *.
  - injection E as <- _. repeat split; reflexivity.
  - destruct (str_truthy fp); cbn [negb andb] in E |- *.
    + apply Py_bind_Ok in E as (info & w5 & _ & E).
      apply Py_bind_Ok in E as (sy & w6 & _ & E).
      apply Py_bind_Ok in E as (mc & w7 & _ & E).
      injection E as <- _. repeat split; reflexivity.
    + injection E as <- _. repeat split; reflexivity.
Qed.

(** C9 (as amended): when an input image does not decode and fetching it
    did not fail, [match_template] returns, without raising, a record
    whose [error] string names the path or URL that failed;
    [detect_header_visible] returns true and [find_scroll_position] the
    record [scroll_y: 0, confidence: 0], which has no [error] entry. *)
Theorem decode_failure_results :
  (forall fp t out vw vh w,
     fetchable w t = true ->
     files w !! fp ≫= decode = None ->
     returned (MatchScreenshot.match_template fp t out vw vh w) =
     Some [ ("error", VStr (String.append "Could not load full page image: " fp)) ]) /\
  (forall fp t out vw vh w full,
     fetchable w t = true ->
     files w !! fp ≫= decode = Some full ->
     served w t ≫= decode = None ->
     returned (MatchScreenshot.match_template fp t out vw vh w) =
     Some [ ("error", VStr (String.append "Could not load template image: " t)) ]) /\
  (forall s threshold w,
     fetchable w s = true ->
     served w s ≫= decode = None ->
     returned (detect_header_visible s threshold w) = Some true) /\
  (forall fp t w,
     fetchable w t = true ->
     files w !! fp ≫= decode = None \/ served w t ≫= decode = None ->
     returned (find_scroll_position fp t w) =
     Some [ ("scroll_y", VInt 0); ("confidence", VInt 0) ]) /\
  dict_get no_position "error" = None.
Proof.
  assert (Hload : forall t w, fetchable w t = true ->
            MatchScreenshot.load_image t w =
            Ok (served w t ≫= decode, fetched "/tmp/feedbucket_template.jpg" w t)).
  { intros t w. unfold fetchable, served, fetched.
    destruct (String.prefix "http" t) eqn:Hp; intros Hf.
    - rewrite load_image_url by exact Hp.
      destruct (remote w !! t); [reflexivity|discriminate].
    - rewrite load_image_path by exact Hp. reflexivity. }
  split; [|split; [|split; [|split]]].
  - intros fp t out vw vh w Hf Hnone. unfold MatchScreenshot.match_template.
    erewrite Py_bind_eq by (rewrite cv2_imread_eq, Hnone; reflexivity).
    erewrite Py_bind_eq by (apply Hload; exact Hf). reflexivity.
  - intros fp t out vw vh w full Hf Hfull Hnone.
    unfold MatchScreenshot.match_template.
    erewrite Py_bind_eq by (rewrite cv2_imread_eq, Hfull; reflexivity).
    erewrite Py_bind_eq by (apply Hload; exact Hf). rewrite Hnone. reflexivity.
  - intros s threshold w Hf Hnone. rewrite detect_header_visible_resolve.
    rewrite resolve_served by exact Hf. rewrite Hnone. reflexivity.
  - intros fp t w Hf Hnone. rewrite find_scroll_position_resolve.
    rewrite resolve_served by exact Hf.
    destruct Hnone as [-> | ->]; [reflexivity|].
    destruct (files w !! fp ≫= decode); reflexivity.
  - reflexivity.
Qed.

(** C10 (as amended): in each loader of a path-or-URL argument
    ([load_image], [get_image_dimensions], [detect_header_visible] and the
    template of [find_scroll_position]) the string is taken as a URL, and
    downloaded to the loader's fixed temporary path before decoding,
    exactly when it starts with "http"; any other string goes to the
    decoder as a path.  The full-page arguments are not classified: they
    are read as local paths whatever they start with. *)
Theorem path_or_url_classification :
  (forall s w,
     MatchScreenshot.load_image s w = resolve "/tmp/feedbucket_template.jpg" Ok s w) /\
  (forall s w,
     get_image_dimensions s w = resolve "/tmp/feedbucket_check.jpg" dimensions_of s w) /\
  (forall s threshold w,
     detect_header_visible s threshold w =
     resolve "/tmp/feedbucket_detect.jpg" header_of s w) /\
  (forall fp t w,
     find_scroll_position fp t w =
     resolve "/tmp/feedbucket_template.jpg"
       (position_of (files w !! fp ≫= decode)) t w) /\
  (forall fp t out vw vh w,
     files w !! fp ≫= decode = None ->
     MatchScreenshot.match_template fp t out vw vh w =
     resolve "/tmp/feedbucket_template.jpg"
       (fun _ => Ok [ ("error",
                       VStr (String.append "Could not load full page image: " fp)) ])
       t w).
Proof.
  assert (Hload : forall s w, MatchScreenshot.load_image s w =
                    resolve "/tmp/feedbucket_template.jpg" Ok s w).
  { intros s w. unfold resolve. destruct (String.prefix "http" s) eqn:Hp.
    - rewrite load_image_url by exact Hp. destruct (remote w !! s); reflexivity.
    - rewrite load_image_path by exact Hp. reflexivity. }
  split; [exact Hload|].
  split; [exact get_image_dimensions_resolve|].
  split; [exact detect_header_visible_resolve|].
  split; [exact find_scroll_position_resolve|].
  intros fp t out vw vh w Hnone. unfold MatchScreenshot.match_template.
  erewrite Py_bind_eq by (rewrite cv2_imread_eq, Hnone; reflexivity).
  unfold mbind, Py_bind. rewrite Hload. unfold resolve.
  destruct (String.prefix "http" t).
  - destruct (remote w !! t); reflexivity.
  - reflexivity.
Qed.

End SmartCaptureClaims.

(** ** The scripts run on the sample files *)

Module SampleFacts.
Import Sample.

Lemma peak_ok : @peak_inside cv.
Proof. intros img t Hw Hh. cbn. lia. Qed.

Lemma scores_ok : @scores_bounded cv.
Proof.
  intros img t. cbn. unfold peak_score.
  destruct (width t <? 45); split; reflexivity.
Qed.

Lemma not_nan_ok : @scores_not_nan cv.
Proof.
  intros img t. cbn. unfold peak_score.
  destruct (width t <? 45); reflexivity.
Qed.

(** The record of the match of [shot] in [page]. *)
Example match_run :
  returned (@MatchScreenshot.match_template cv "page.png" "shot.png" "out.png"
              None None disk)
  = Some (match_record (Py64.lit 125 100) found "out.png").
Proof. vm_compute. reflexivity. Qed.

(** With a viewport 50 wide the page is halved; scales 0.5 to 1.1 all score
    0.45 and the first of them, 0.5, is kept. *)
Example viewport_run :
  returned (@MatchScreenshot.match_template cv "page.png" "http://host/shot.png"
              "out.png" (Some 50) (Some 50) disk)
  = Some (match_record (Py64.lit 5 10) (Trial 20 20 (Py64.lit 45 100) (0, 0))
            "out.png").
Proof. vm_compute. reflexivity. Qed.

(** A dark band on top is a header; a plain light image is not. *)
Example header_runs :
  returned (@SmartCapture.detect_header_visible cv "top.png" 50 disk) = Some true /\
  returned (@SmartCapture.detect_header_visible cv "shot.png" 50 disk) = Some false.
Proof. split; vm_compute; reflexivity. Qed.

End SampleFacts.

(** Witness of [match_template_output_size]: [shot] matched in [page]. *)
Lemma match_template_output_size_witness :
  exists r img,
    @MatchScreenshot.match_template Sample.cv "page.png" "shot.png" "out.png"
      None None Sample.disk =
      (if @has_encoder Sample.cv "out.png" then
         Ok (r, if @can_write Sample.cv "out.png"
                then write_file "out.png" (Picture (@stored Sample.cv "out.png" img))
                       (fetched "/tmp/feedbucket_template.jpg" Sample.disk "shot.png")
                else fetched "/tmp/feedbucket_template.jpg" Sample.disk "shot.png")
       else Raise (CvError "imwrite")) /\
    (dict_has r "fallback" = false ->
     width (@stored Sample.cv "out.png" img) = width Sample.shot /\
     height (@stored Sample.cv "out.png" img) = height Sample.shot) /\
    (dict_has r "fallback" = true ->
     width (@stored Sample.cv "out.png" img) =
       Z.min (width Sample.shot) (width Sample.page) /\
     height (@stored Sample.cv "out.png" img) =
       Z.min (height Sample.shot) (height Sample.page)).
Proof.
  eapply (@match_template_output_size Sample.cv SampleFacts.peak_ok
            "page.png" "shot.png" "out.png" None None Sample.disk
            Sample.page Sample.shot Sample.page);
    reflexivity.
Defined.

(** C1 as stated fails: with [page] (100 by 200) as the template and [shot]
    (40 by 40) as the full page, the fallback writes a 40 by 40 image. *)
Lemma fallback_output_smaller_than_template :
  output_size "out.png"
    (@MatchScreenshot.match_template Sample.cv "shot.png" "page.png" "out.png"
       None None Sample.disk) = Some (40, 40) /\
  (width Sample.page, height Sample.page) = (100, 200) /\
  (40, 40) <> (100, 200).
Proof. split; [vm_compute; reflexivity|]. split; [reflexivity|discriminate]. Qed.

(** C2 as stated fails: in the same run (no scale is viable) with an output
    name that has no encoder, [cv2.imwrite] raises and nothing is returned
    or written; and with an output path that cannot be written the run
    returns the fallback record and leaves the files as they were. *)
Lemma no_viable_scale_without_output :
  forallb (exceeds_page (width Sample.page) (height Sample.page)
             (width Sample.shot) (height Sample.shot))
    MatchScreenshot.tmpl_scales = true /\
  @MatchScreenshot.match_template Sample.cv "shot.png" "page.png" "out.xyz"
    None None Sample.disk = Raise (CvError "imwrite") /\
  @MatchScreenshot.match_template Sample.cv "shot.png" "page.png"
    "/readonly/out.png" None None Sample.disk =
    Ok ([ ("success", VBool true); ("confidence", VInt (-1));
          ("fallback", VBool true); ("output", VStr "/readonly/out.png") ],
        Sample.disk) /\
  files Sample.disk !! "/readonly/out.png" = None.
Proof. repeat split; vm_compute; reflexivity. Qed.

(** Witness of [match_template_no_viable_scale]: the same run with an
    output name that has an encoder. *)
Lemma match_template_no_viable_scale_witness :
  exists r cropped,
    @MatchScreenshot.match_template Sample.cv "shot.png" "page.png" "out.png"
      None None Sample.disk =
      Ok (r, if @can_write Sample.cv "out.png"
             then write_file "out.png" (Picture (@stored Sample.cv "out.png" cropped))
                    (fetched "/tmp/feedbucket_template.jpg" Sample.disk "page.png")
             else fetched "/tmp/feedbucket_template.jpg" Sample.disk "page.png") /\
    dict_get r "fallback" = Some (VBool true) /\
    dict_get r "success" = Some (VBool true) /\
    height cropped = Z.min (height Sample.page) (height Sample.shot) /\
    width cropped = Z.min (width Sample.page) (width Sample.shot) /\
    forall y x, px cropped y x = px Sample.shot y x.
Proof.
  apply (@match_template_no_viable_scale Sample.cv
           "shot.png" "page.png" "out.png" None None Sample.disk
           Sample.shot Sample.page Sample.shot);
    reflexivity.
Defined.

(** Witness of [match_template_first_best]: scale 1.25 wins over 1.5, which
    scores the same. *)
Lemma match_template_first_best_witness :
  exists page pre s post tr,
    @MatchScreenshot.scale_full_page Sample.cv Sample.page None None = Ok page /\
    MatchScreenshot.tmpl_scales = (pre ++ s :: post)%list /\
    let try := @attempt Sample.cv (map_image (@luminance Sample.cv) page)
                 (map_image (@luminance Sample.cv) Sample.shot)
                 (width Sample.shot) (height Sample.shot) (width page) (height page) in
    try s = Ok (Some tr) /\
    match_record (Py64.lit 125 100) Sample.found "out.png" = match_record s tr "out.png" /\
    (forall s' tr', In s' MatchScreenshot.tmpl_scales -> try s' = Ok (Some tr') ->
                    Py64.leb (t_val tr') (t_val tr) = true) /\
    (forall s' tr', In s' pre -> try s' = Ok (Some tr') ->
                    Py64.ltb (t_val tr') (t_val tr) = true) /\
    (forall s' tr', In s' MatchScreenshot.tmpl_scales -> try s' = Ok (Some tr') ->
                    SFeqb (t_val tr') (t_val tr) = true -> In s' (s :: post)).
Proof.
  eapply (@match_template_first_best Sample.cv SampleFacts.not_nan_ok
            "page.png" "shot.png" "out.png" None None Sample.disk _
            Sample.page Sample.shot
            (match_record (Py64.lit 125 100) Sample.found "out.png"));
    [reflexivity|reflexivity|vm_compute; reflexivity|reflexivity].
Defined.

(** Witness of [match_template_confidence_range]: the confidence 0.6 of that
    match. *)
Lemma match_template_confidence_range_witness :
  value_between (Py64.of_int (-1)) (Py64.of_int 1) (VFloat (Py64.lit 60 100)) = true /\
  (dict_has (match_record (Py64.lit 125 100) Sample.found "out.png") "fallback" = false ->
   value_between (Py64.lit 3 10) (Py64.of_int 1) (VFloat (Py64.lit 60 100)) = true).
Proof.
  eapply (@match_template_confidence_range Sample.cv SampleFacts.scores_ok
            "page.png" "shot.png" "out.png" None None Sample.disk _
            (match_record (Py64.lit 125 100) Sample.found "out.png"));
    [vm_compute; reflexivity|reflexivity].
Defined.

(** C5 as stated fails: with no viable scale the confidence returned is the
    integer -1, which is not between 0.0 and 1.0. *)
Lemma fallback_confidence_negative :
  returned (@MatchScreenshot.match_template Sample.cv "shot.png" "page.png" "out.png"
              None None Sample.disk)
  = Some [ ("success", VBool true); ("confidence", VInt (-1));
           ("fallback", VBool true); ("output", VStr "out.png") ] /\
  value_between (Py64.of_int 0) (Py64.of_int 1) (VInt (-1)) = false.
Proof. split; vm_compute; reflexivity. Qed.

(** Witness of [detect_header_visible_spec]: the image with a dark band. *)
Lemma detect_header_visible_spec_witness :
  exists b,
    @SmartCapture.detect_header_visible Sample.cv "top.png" 50 Sample.disk =
      Ok (b, fetched "/tmp/feedbucket_detect.jpg" Sample.disk "top.png") /\
    (b = true <->
     Py64.ltb (Py64.lit 5 100) (@dark_fraction Sample.cv (Sample.banded 300 80)) = true \/
     Py64.ltb (Py64.of_int 10) (@edge_density Sample.cv (Sample.banded 300 80)) = true) /\
    ((forall y x, 0 <= y < Z.min 100 (height (Sample.banded 300 80)) ->
        0 <= x < width (Sample.banded 300 80) ->
        50 <= @luminance Sample.cv (px (Sample.banded 300 80) y x) /\
        @canny_map Sample.cv (@top_gray Sample.cv (Sample.banded 300 80)) 50 150 y x = 0) ->
     b = false).
Proof.
  apply (@detect_header_visible_spec Sample.cv "top.png" 50 Sample.disk
           (Sample.banded 300 80)).
  reflexivity.
Defined.

(** Witness of [analyze_capture_requirements_shape]: [shot] shows no header
    and is located in [page]. *)
Lemma analyze_capture_requirements_shape_witness :
  exists vw vh hv w1 w2,
    SmartCapture.get_image_dimensions "shot.png" Sample.disk =
      Ok ([ ("width", VInt vw); ("height", VInt vh) ], w1) /\
    @SmartCapture.detect_header_visible Sample.cv "shot.png" 50 w1 = Ok (hv, w2) /\
    let r := [ ("viewport_width", VInt 40); ("viewport_height", VInt 40);
               ("capture_type", VStr "scroll_match"); ("header_visible", VBool false);
               ("scroll_y", VInt 0);
               ("match_confidence", VFloat (Py64.lit 60 100)) ] in
    dict_get r "viewport_width" = Some (VInt vw) /\
    dict_get r "viewport_height" = Some (VInt vh) /\
    dict_get r "header_visible" = Some (VBool hv) /\
    dict_get r "capture_type" =
      Some (VStr (if hv then "viewport" else "scroll_match")) /\
    dict_has r "scroll_y" = negb hv && str_truthy (Some "page.png") /\
    dict_has r "match_confidence" = negb hv && str_truthy (Some "page.png") /\
    dict_get r "needs_full_page" =
      (if negb hv && negb (str_truthy (Some "page.png")) then Some (VBool true)
       else None).
Proof.
  apply (@analyze_capture_requirements_shape Sample.cv "shot.png" (Some "page.png")
           Sample.disk Sample.disk).
  vm_compute. reflexivity.
Defined.

(** Witness of [decode_failure_results]: a file that does not decode, as
    the full page of [match_template] and of [find_scroll_position]. *)
Lemma decode_failure_results_witness :
  returned (@MatchScreenshot.match_template Sample.cv "broken.png" "shot.png" "out.png"
              None None Sample.disk)
  = Some [ ("error", VStr "Could not load full page image: broken.png") ] /\
  returned (@SmartCapture.find_scroll_position Sample.cv "broken.png" "shot.png"
              Sample.disk)
  = Some [ ("scroll_y", VInt 0); ("confidence", VInt 0) ].
Proof.
  split.
  - apply (proj1 (@decode_failure_results Sample.cv)
             "broken.png" "shot.png" "out.png" None None Sample.disk);
      reflexivity.
  - apply (proj1 (proj2 (proj2 (proj2 (@decode_failure_results Sample.cv))))
             "broken.png" "shot.png" Sample.disk); [reflexivity|].
    left. reflexivity.
Defined.

(** C9 as stated fails: the full page given to [find_scroll_position] does
    not decode, and what is returned has no [error] entry. *)
Lemma decode_failure_without_error :
  files Sample.disk !! "broken.png" ≫= decode = None /\
  returned (@SmartCapture.find_scroll_position Sample.cv "broken.png" "shot.png"
              Sample.disk)
  = Some [ ("scroll_y", VInt 0); ("confidence", VInt 0) ] /\
  dict_get [ ("scroll_y", VInt 0); ("confidence", VInt 0) ] "error" = None.
Proof. repeat split; vm_compute; reflexivity. Qed.

(** Witness of [path_or_url_classification]: a local file whose name starts
    with "http" is looked up on the network, where it does not exist. *)
Lemma path_or_url_classification_witness :
  is_Some (files Sample.disk !! "http_local.png") /\
  MatchScreenshot.load_image "http_local.png" Sample.disk =
    Raise (URLError "http_local.png") /\
  @MatchScreenshot.match_template Sample.cv "broken.png" "http://host/shot.png"
    "out.png" None None Sample.disk =
  Ok ([ ("error", VStr "Could not load full page image: broken.png") ],
      write_file "/tmp/feedbucket_template.jpg" (Picture Sample.shot) Sample.disk).
Proof.
  split; [eexists; reflexivity|]. split.
  - rewrite (proj1 (@path_or_url_classification Sample.cv)). reflexivity.
  - rewrite (proj2 (proj2 (proj2 (proj2 (@path_or_url_classification Sample.cv))))
               "broken.png" "http://host/shot.png" "out.png" None None Sample.disk)
      by reflexivity.
    reflexivity.
Defined.

(** C10 as stated fails: the full-page argument of [match_template] starts
    with "http" and the URL is reachable, yet nothing is downloaded; the
    string goes to the decoder as a path, where no such file exists. *)
Lemma full_page_url_not_downloaded :
  String.prefix "http" "http://host/page.png" = true /\
  remote Sample.disk !! "http://host/page.png" = Some (Picture Sample.page) /\
  @MatchScreenshot.match_template Sample.cv "http://host/page.png" "shot.png"
    "out.png" None None Sample.disk =
  Ok ([ ("error", VStr "Could not load full page image: http://host/page.png") ],
      Sample.disk).
Proof. repeat split; vm_compute; reflexivity. Qed.

(** * Further properties of match-screenshot.py *)

Lemma Py_bind_ext {A B} (m : Py A) (k1 k2 : A -> Py B) (w : world) :
  (forall a w1, k1 a w1 = k2 a w1) -> (m ≫= k1) w = (m ≫= k2) w.
Proof.
  intros Hk. unfold mbind, Py_bind. destruct (m w) as [[a w1]|]; [apply Hk|reflexivity].
Qed.

Section MatchTemplateRuns.
Context `{OpenCV}.
Import MatchScreenshot.

(** A run on two decoded images: the rescaled page, the state the sweep
    ends in, and which of the two ways of writing the output was taken. *)
Lemma match_template_run (fp t out : string) (vw vh : option Z) (w w' : world)
    (full template : image bgr) (r : dict) :
  files w !! fp ≫= decode = Some full ->
  served w t ≫= decode = Some template ->
  match_template fp t out vw vh w = Ok (r, w') ->
  exists page st,
    scale_full_page full vw vh = Ok page /\
    is_empty page = false /\
    sweep_loop (map_image luminance page) (map_image luminance template)
      (width template) (height template) (width page) (height page)
      sweep_init tmpl_scales = Ok st /\
    ((low_confidence st = true /\
      r = [ ("success", VBool true);
            ("confidence",
             if num_truthy (best_val st) then value_of_num (best_val st) else VInt 0);
            ("fallback", VBool true);
            ("output", VStr out) ] /\
      w' = (if can_write out then
              write_file out
                (Picture (stored out
                            (Image (Z.min (height template) (height page))
                                   (Z.min (width template) (width page))
                                   (fun y x => px page y x))))
                (fetched "/tmp/feedbucket_template.jpg" w t)
            else fetched "/tmp/feedbucket_template.jpg" w t) /\
      has_encoder out = true) \/
     (low_confidence st = false /\
      extract_region page (width template) (height template) out st
        (fetched "/tmp/feedbucket_template.jpg" w t) = Ok (r, w'))).
Proof.
  intros Hf Ht E.
  assert (Hnt : is_empty template = false) by (eapply read_nonempty; eauto).
  rewrite (match_template_loaded _ _ _ _ _ _ _ _ Hf Ht) in E.
  rewrite Py_bind_lift in E.
  destruct (scale_full_page full vw vh) as [page|] eqn:Hpage; [|discriminate].
  rewrite Py_bind_lift in E.
  destruct (sweep_loop _ _ _ _ _ _ _ _) as [st|] eqn:Hsweep; [|discriminate].
  assert (Hnp : is_empty page = false).
  { eapply scale_full_page_nonempty; [|exact Hpage]. eapply read_nonempty; eauto. }
  exists page, st. split; [reflexivity|]. split; [exact Hnp|]. split; [exact Hsweep|].
  destruct (low_confidence st) eqn:Hlow; [left|right; split; [reflexivity|exact E]].
  apply is_empty_false in Hnt as [Hth Htw].
  rewrite fallback_crop_run in E by assumption.
  apply after_imwrite_Ok in E as (Henc & -> & ->).
  split; [reflexivity|]. split; [reflexivity|]. split; [reflexivity|exact Henc].
Qed.

Lemma fallback_record_has_fallback (bv : num) (out : string) :
  dict_has [ ("success", VBool true);
             ("confidence", if num_truthy bv then value_of_num bv else VInt 0);
             ("fallback", VBool true);
             ("output", VStr out) ] "fallback" = true.
Proof. reflexivity. Qed.

(** Where the peak of a tried scale lies in the page. *)
Lemma attempt_peak_inside (Hin : peak_inside) (full_gray tmpl_gray : image Z)
    (tmpl_w tmpl_h : Z) (s : float) (tr : trial) :
  attempt full_gray tmpl_gray tmpl_w tmpl_h (width full_gray) (height full_gray) s
    = Ok (Some tr) ->
  0 <= fst (t_loc tr) /\ fst (t_loc tr) + t_w tr <= width full_gray /\
  0 <= snd (t_loc tr) /\ snd (t_loc tr) + t_h tr <= height full_gray.
Proof.
  intros Ht.
  apply attempt_fits in Ht as (_ & _ & Hw & Hh & r & _ & Hrw & Hrh & Hp).
  unfold cv2_match_peak in Hp.
  destruct (is_empty full_gray || is_empty r); [discriminate|].
  rewrite Hrw, Hrh in Hp.
  destruct ((height full_gray <? t_h tr) || (width full_gray <? t_w tr)) eqn:Hsw.
  { apply orb_true_iff in Hsw as [Hsw|Hsw]; apply Z.ltb_lt in Hsw; lia. }
  injection Hp as Hp.
  assert (Hi : width r <= width full_gray -> height r <= height full_gray -> _)
    by exact (Hin full_gray r).
  rewrite Hp, Hrw, Hrh in Hi. cbn [fst snd] in Hi. lia.
Qed.

(** X1: with both images decoded and scores that are numbers, the record
    returned carries [fallback] exactly when every scale that was tried
    scored below 0.3 (none tried included). *)
Theorem match_template_fallback_iff (Hn : scores_not_nan)
    (fp t out : string) (vw vh : option Z) (w w' : world)
    (full template : image bgr) (r : dict) :
  files w !! fp ≫= decode = Some full ->
  served w t ≫= decode = Some template ->
  match_template fp t out vw vh w = Ok (r, w') ->
  exists page,
    scale_full_page full vw vh = Ok page /\
    (dict_has r "fallback" = true <->
     forall s tr,
       In s tmpl_scales ->
       attempt (map_image luminance page) (map_image luminance template)
         (width template) (height template) (width page) (height page) s
         = Ok (Some tr) ->
       Py64.ltb (t_val tr) (Py64.lit 3 10) = true).
Proof.
  intros Hf Ht E.
  destruct (match_template_run _ _ _ _ _ _ _ _ _ _ Hf Ht E)
    as (page & st & Hpage & _ & Hsweep & Hcase).
  exists page. split; [exact Hpage|].
  apply sweep_loop_spec in Hsweep; [|exact Hn|reflexivity].
  destruct Hsweep as [[-> Hall]|(pre & s & post & tr & Hsplit & Htr & -> & _ & Hpre & Hpost)].
  - destruct Hcase as [(_ & -> & _)|(Hlow & _)]; [|discriminate Hlow].
    split; [|reflexivity]. intros _ s tr Hs Htr.
    apply (FloatOrder.leb_ltb_trans _ (Py64.of_int (-1))); [|reflexivity].
    apply FloatOrder.not_ltb_leb; [reflexivity|eapply attempt_not_nan; eauto|].
    exact (Hall s tr Hs Htr).
  - assert (Hmax : forall s' tr', In s' tmpl_scales ->
              attempt (map_image luminance page) (map_image luminance template)
                (width template) (height template) (width page) (height page) s'
                = Ok (Some tr') ->
              Py64.leb (t_val tr') (t_val tr) = true).
    { intros s' tr' Hin' Htr'. rewrite Hsplit in Hin'.
      apply in_app_or in Hin' as [Hin'|[<-|Hin']].
      - apply FloatOrder.ltb_leb. eauto.
      - assert (tr' = tr) as -> by congruence.
        assert (Hnn : Py64.is_nan (t_val tr) = false) by (eapply attempt_not_nan; eauto).
        destruct (Py64.ltb (t_val tr) (t_val tr)) eqn:Hl.
        + apply FloatOrder.ltb_not_leb in Hl as Hl'.
          apply FloatOrder.ltb_leb in Hl. congruence.
        + apply FloatOrder.not_ltb_leb; assumption.
      - eauto. }
    destruct Hcase as [(Hlow & -> & _)|(Hlow & Hx)].
    + split; [|reflexivity]. intros _ s' tr' Hs' Htr'.
      eapply FloatOrder.leb_ltb_trans; [exact (Hmax s' tr' Hs' Htr')|].
      exact Hlow.
    + apply extract_region_confidence in Hx as [_ Hno]. rewrite Hno.
      split; [discriminate|]. intros Hall. exfalso.
      assert (Hs : In s tmpl_scales) by (rewrite Hsplit; apply in_elt).
      specialize (Hall s tr Hs Htr).
      unfold low_confidence in Hlow. cbn in Hlow. congruence.
Qed.

(** X2: whenever the record carries [fallback], the image handed to
    [cv2.imwrite] is the top left corner of the (possibly rescaled) page,
    [min] of the two heights high and [min] of the two widths wide, pixel
    for pixel.  The output name then has an encoder; the file at the output
    path holds the encoding of that corner, of the same size, when the path
    can be written, and the run writes nothing there when it cannot. *)
Theorem match_template_fallback_crop
    (fp t out : string) (vw vh : option Z) (w w' : world)
    (full template : image bgr) (r : dict) :
  files w !! fp ≫= decode = Some full ->
  served w t ≫= decode = Some template ->
  match_template fp t out vw vh w = Ok (r, w') ->
  dict_has r "fallback" = true ->
  exists page cropped,
    scale_full_page full vw vh = Ok page /\
    height cropped = Z.min (height template) (height page) /\
    width cropped = Z.min (width template) (width page) /\
    (forall y x, px cropped y x = px page y x) /\
    has_encoder out = true /\
    (can_write out = true ->
     files w' !! out = Some (Picture (stored out cropped)) /\
     height (stored out cropped) = height cropped /\
     width (stored out cropped) = width cropped) /\
    (can_write out = false ->
     w' = fetched "/tmp/feedbucket_template.jpg" w t).
Proof.
  intros Hf Ht E Hfb.
  destruct (match_template_run _ _ _ _ _ _ _ _ _ _ Hf Ht E)
    as (page & st & Hpage & _ & _ & [(_ & _ & -> & Henc)|(_ & Hx)]).
  - exists page,
      (Image (Z.min (height template) (height page))
             (Z.min (width template) (width page)) (fun y x => px page y x)).
    split; [exact Hpage|].
    split; [reflexivity|]. split; [reflexivity|]. split; [reflexivity|].
    split; [exact Henc|].
    split; intros ->; [|reflexivity].
    split; [apply files_write_eq|]. split; reflexivity.
  - apply extract_region_confidence in Hx as [_ Hno]. congruence.
Qed.

(** X3: the confidence of a fallback record is the best score the sweep
    found, not a placeholder: the integer -1 only when no tried scale scored
    above -1, otherwise the maximal score of the tried scales (the integer 0
    standing in for a score of zero). *)
Theorem match_template_fallback_confidence (Hn : scores_not_nan)
    (fp t out : string) (vw vh : option Z) (w w' : world)
    (full template : image bgr) (r : dict) :
  files w !! fp ≫= decode = Some full ->
  served w t ≫= decode = Some template ->
  match_template fp t out vw vh w = Ok (r, w') ->
  dict_has r "fallback" = true ->
  exists page,
    scale_full_page full vw vh = Ok page /\
    let try := attempt (map_image luminance page) (map_image luminance template)
                 (width template) (height template) (width page) (height page) in
    (dict_get r "confidence" = Some (VInt (-1)) /\
     forall s tr, In s tmpl_scales -> try s = Ok (Some tr) ->
                  Py64.ltb (Py64.of_int (-1)) (t_val tr) = false)
    \/
    (exists s tr,
       In s tmpl_scales /\ try s = Ok (Some tr) /\
       Py64.ltb (Py64.of_int (-1)) (t_val tr) = true /\
       (forall s' tr', In s' tmpl_scales -> try s' = Ok (Some tr') ->
                       Py64.ltb (t_val tr) (t_val tr') = false) /\
       dict_get r "confidence" =
         Some (if Py64.is_zero (t_val tr) then VInt 0 else VFloat (t_val tr))).
Proof.
  intros Hf Ht E Hfb.
  destruct (match_template_run _ _ _ _ _ _ _ _ _ _ Hf Ht E)
    as (page & st & Hpage & _ & Hsweep & Hcase).
  exists page. split; [exact Hpage|]. cbv zeta.
  destruct Hcase as [(_ & -> & _)|(_ & Hx)];
    [|apply extract_region_confidence in Hx as [_ Hno]; congruence].
  apply sweep_loop_spec in Hsweep; [|exact Hn|reflexivity].
  destruct Hsweep as [[-> Hall]|(pre & s & post & tr & Hsplit & Htr & -> & Hgt & Hpre & Hpost)].
  - left. split; [reflexivity|exact Hall].
  - right. exists s, tr.
    split; [rewrite Hsplit; apply in_elt|]. split; [exact Htr|].
    split; [exact Hgt|]. split.
    + intros s' tr' Hin' Htr'. rewrite Hsplit in Hin'.
      destruct (Py64.ltb (t_val tr) (t_val tr')) eqn:Hl; [|reflexivity].
      apply in_app_or in Hin' as [Hin'|[<-|Hin']].
      * apply (Hpre _ _ Hin') in Htr'. apply FloatOrder.ltb_not_leb in Hl.
        apply FloatOrder.ltb_leb in Htr'. congruence.
      * assert (tr' = tr) as -> by congruence.
        apply FloatOrder.ltb_not_leb in Hl as Hl'.
        apply FloatOrder.ltb_leb in Hl. congruence.
      * apply (Hpost _ _ Hin') in Htr'. apply FloatOrder.ltb_not_leb in Hl. congruence.
    + cbn [record_of best_val num_truthy value_of_num dict_get String.eqb].
      cbn. destruct (Py64.is_zero (t_val tr)); reflexivity.
Qed.

(** X4: in a best-match record the matched rectangle has a positive size,
    is strictly smaller than the (possibly rescaled) page in both
    dimensions, and lies inside the page, so the clamping of the crop to the
    image bounds never cuts anything off. *)
Theorem match_template_region_inside (Hin : peak_inside)
    (fp t out : string) (vw vh : option Z) (w w' : world)
    (full template : image bgr) (r : dict) :
  files w !! fp ≫= decode = Some full ->
  served w t ≫= decode = Some template ->
  match_template fp t out vw vh w = Ok (r, w') ->
  dict_has r "fallback" = false ->
  exists page x y mw mh,
    scale_full_page full vw vh = Ok page /\
    dict_get r "match_location" = Some (VDict [ ("x", VInt x); ("y", VInt y) ]) /\
    dict_get r "match_size" = Some (VDict [ ("width", VInt mw); ("height", VInt mh) ]) /\
    0 < mw < width page /\ 0 < mh < height page /\
    0 <= x /\ x + mw <= width page /\ 0 <= y /\ y + mh <= height page.
Proof.
  intros Hf Ht E Hno.
  assert (Hnt : is_empty template = false) by (eapply read_nonempty; eauto).
  destruct (match_template_run _ _ _ _ _ _ _ _ _ _ Hf Ht E)
    as (page & st & Hpage & _ & Hsweep & [(_ & -> & _)|(Hlow & Hx)]);
    [rewrite fallback_record_has_fallback in Hno; discriminate|].
  apply sweep_loop_origin in Hsweep as [->|(s & tr & _ & Htr & ->)];
    [discriminate Hlow|].
  destruct (extract_region_run Hin page template out s tr
              (fetched "/tmp/feedbucket_template.jpg" w t) Hnt Htr)
    as (img & _ & _ & Hrun).
  rewrite Hrun in Hx. apply after_imwrite_Ok in Hx as (_ & -> & _).
  pose proof (attempt_peak_inside Hin _ _ _ _ _ _ Htr) as Hloc.
  cbn [map_image width height] in Hloc.
  apply attempt_fits in Htr as (_ & _ & Hw & Hh & _).
  exists page, (fst (t_loc tr)), (snd (t_loc tr)), (t_w tr), (t_h tr).
  split; [exact Hpage|]. split; [reflexivity|]. split; [reflexivity|]. lia.
Qed.

(** X5: the value of [viewport_height] is never used: any two non-zero
    heights give the same run. *)
Theorem viewport_height_is_only_a_flag
    (fp t out : string) (vw : option Z) (vh1 vh2 : Z) (w : world) :
  vh1 <> 0 -> vh2 <> 0 ->
  match_template fp t out vw (Some vh1) w = match_template fp t out vw (Some vh2) w.
Proof.
  intros H1 H2.
  assert (Hs : forall full, scale_full_page full vw (Some vh1) =
                            scale_full_page full vw (Some vh2)).
  { intros full. unfold scale_full_page, int_truthy.
    rewrite (proj2 (Z.eqb_neq vh1 0) H1), (proj2 (Z.eqb_neq vh2 0) H2). reflexivity. }
  unfold match_template.
  apply Py_bind_ext. intros o w1. apply Py_bind_ext. intros o2 w2.
  destruct o as [full|]; [|reflexivity]. destruct o2 as [template|]; [|reflexivity].
  unfold shape. rewrite !Py_bind_lift, Hs. reflexivity.
Qed.

(** X6: a negative [viewport_width] (with a non-zero height) makes the run
    on two decoded images end in an exception: the page cannot be resized. *)
Theorem negative_viewport_width_raises
    (fp t out : string) (vw vh : Z) (w : world) (full template : image bgr) :
  files w !! fp ≫= decode = Some full ->
  served w t ≫= decode = Some template ->
  vw < 0 -> vh <> 0 ->
  exists e, match_template fp t out (Some vw) (Some vh) w = Raise e.
Proof.
  intros Hf Ht Hvw Hvh.
  rewrite (match_template_loaded _ _ _ _ _ _ _ _ Hf Ht), Py_bind_lift.
  assert (Hr : exists e, scale_full_page full (Some vw) (Some vh) = Raise e).
  { destruct (scale_full_page full (Some vw) (Some vh)) as [page|e] eqn:E;
      [exfalso|eauto].
    unfold scale_full_page, int_truthy in E.
    rewrite (proj2 (Z.eqb_neq vw 0)) in E by lia.
    rewrite (proj2 (Z.eqb_neq vh 0) Hvh) in E. cbn [negb andb] in E.
    change (default 0 (Some vw)) with vw in E.
    apply bind_Ok in E as (sc & _ & E). apply bind_Ok in E as (nh & _ & E).
    unfold cv2_resize in E. rewrite (proj2 (Z.leb_le vw 0)) in E by lia.
    rewrite orb_true_r in E. discriminate. }
  destruct Hr as [e ->]. exists e. reflexivity.
Qed.

(** X7: a template one pixel wide makes the run end in a [cv2.resize]
    error: at scale 0.5 its width becomes [int(0.5) = 0], the scale is not
    skipped (unless its height rules it out) and the template cannot be
    resized to a width of zero. *)
Theorem one_pixel_template_raises
    (fp t out : string) (vw vh : option Z) (w : world)
    (full template page : image bgr) (b : Z) :
  files w !! fp ≫= decode = Some full ->
  served w t ≫= decode = Some template ->
  scale_full_page full vw vh = Ok page ->
  width template = 1 ->
  scaled_dim (height template) (Py64.lit 5 10) = Ok b ->
  b < height page ->
  match_template fp t out vw vh w = Raise (CvError "resize").
Proof.
  intros Hf Ht Hpage Hw Hb Hlt.
  assert (Hnp : is_empty page = false).
  { eapply scale_full_page_nonempty; [|exact Hpage]. eapply read_nonempty; eauto. }
  apply is_empty_false in Hnp as [Hph Hpw].
  rewrite (match_template_loaded _ _ _ _ _ _ _ _ Hf Ht).
  rewrite Py_bind_lift, Hpage, Py_bind_lift.
  assert (Hbody : sweep_body (map_image luminance page) (map_image luminance template)
            (width template) (height template) (width page) (height page)
            sweep_init (Py64.lit 5 10) = Raise (CvError "resize")).
  { unfold sweep_body. rewrite Hw, Hb.
    change (scaled_dim 1 (Py64.lit 5 10)) with (@Ok Z 0).
    cbn [mbind result_bind]. unfold skip_scale.
    destruct (0 >=? width page) eqn:E1; [apply Z.geb_le in E1; lia|].
    destruct (b >=? height page) eqn:E2; [apply Z.geb_le in E2; lia|].
    cbn [orb]. unfold cv2_resize. rewrite orb_true_r. reflexivity. }
  unfold tmpl_scales. cbn [sweep_loop]. rewrite Hbody. reflexivity.
Qed.

End MatchTemplateRuns.

(** * Further properties of smart-capture.py *)

Lemma served_fetched (temp : string) (w : world) (s : string) :
  served (fetched temp w s) s = served w s.
Proof.
  unfold served, fetched. destruct (String.prefix "http" s); [|reflexivity].
  destruct (remote w !! s) as [f|] eqn:Hr; [|exact Hr].
  unfold write_file. cbn [remote]. exact Hr.
Qed.

Lemma fetchable_fetched (temp : string) (w : world) (s : string) :
  fetchable (fetched temp w s) s = fetchable w s.
Proof.
  unfold fetchable, fetched. destruct (String.prefix "http" s); [|reflexivity].
  destruct (remote w !! s) as [f|] eqn:Hr; [|rewrite Hr; reflexivity].
  unfold write_file. cbn [remote]. rewrite Hr. reflexivity.
Qed.

Lemma fetched_local (temp : string) (w : world) (s : string) :
  String.prefix "http" s = false -> fetched temp w s = w.
Proof. unfold fetched. intros ->. reflexivity. Qed.

Lemma fetched_url (temp : string) (w : world) (s : string) (f : file) :
  String.prefix "http" s = true -> remote w !! s = Some f ->
  fetched temp w s = write_file temp f w.
Proof. unfold fetched. intros -> ->. reflexivity. Qed.

Lemma resolve_Ok {A} (temp : string) (k : option (image bgr) -> result A)
    (s : string) (w w' : world) (a : A) :
  resolve temp k s w = Ok (a, w') ->
  fetchable w s = true /\ k (served w s ≫= decode) = Ok a /\ w' = fetched temp w s.
Proof.
  unfold resolve, fetchable, served, fetched.
  destruct (String.prefix "http" s).
  - destruct (remote w !! s) as [f|]; [|discriminate].
    intros E. apply lift_Ok in E as [E ->]. repeat split. exact E.
  - intros E. apply lift_Ok in E as [E ->]. repeat split. exact E.
Qed.

Section SmartCaptureRuns.
Context `{OpenCV}.
Import SmartCapture.


(** X9: when [find_scroll_position] does run the matcher on two decoded
    images, the template it matches is as wide as the page, so [match_x] is
    0; [template_height] is the template's height after the rescaling
    (both axes are scaled by the ratio of the widths) and is positive and
    below the page's height; and [scroll_y] plus that height stays within
    the page. *)
Theorem find_scroll_position_inside (Hin : peak_inside)
    (fp t : string) (w w' : world) (full template : image bgr) (r : dict) :
  files w !! fp ≫= decode = Some full ->
  served w t ≫= decode = Some template ->
  find_scroll_position fp t w = Ok (r, w') ->
  dict_has r "match_x" = true ->
  exists y h,
    dict_get r "scroll_y" = Some (VInt y) /\
    dict_get r "template_height" = Some (VInt h) /\
    dict_get r "match_x" = Some (VInt 0) /\
    (if width template =? width full then Ok h = Ok (height template)
     else Ok h = (scale ← py_truediv (width full) (width template);
                  py_int (Py64.mul (Py64.of_int (height template)) scale))) /\
    0 < h < height full /\ 0 <= y /\ y + h <= height full.
Proof.
  intros Hf Ht E Hx.
  rewrite find_scroll_position_resolve in E.
  apply resolve_Ok in E as (_ & E & _). rewrite Hf, Ht in E. cbn [position_of] in E.
  assert (Hnf : is_empty full = false) by (eapply read_nonempty; eauto).
  assert (Hnt : is_empty template = false) by (eapply read_nonempty; eauto).
  unfold locate_template, shape in E.
  apply bind_Ok in E as (tpl & Htpl & E).
  assert (Htpl' : width tpl = width full /\ is_empty tpl = false /\
            if width template =? width full then Ok (height tpl) = Ok (height template)
            else Ok (height tpl) =
                 (scale ← py_truediv (width full) (width template);
                  py_int (Py64.mul (Py64.of_int (height template)) scale))).
  { destruct (width template =? width full) eqn:Hw; cbn [negb] in Htpl.
    - injection Htpl as <-. apply Z.eqb_eq in Hw. auto.
    - apply bind_Ok in Htpl as (sc & Hsc & Htpl).
      apply bind_Ok in Htpl as (nh & Hnh & Htpl). rewrite Hsc. cbn [mbind result_bind].
      rewrite Hnh. unfold cv2_resize in Htpl.
      destruct (is_empty template || (width full <=? 0) || (nh <=? 0)) eqn:Hc;
        [discriminate|].
      injection Htpl as <-. cbn [width height].
      apply orb_false_iff in Hc as [Hc Hc2]. apply orb_false_iff in Hc as [_ Hc1].
      split; [reflexivity|]. split; [|reflexivity].
      unfold is_empty. cbn [height width]. rewrite Hc1, Hc2. reflexivity. }
  destruct Htpl' as (Hwt & Hnt' & Hh).
  unfold cv2_cvtColor_gray in E. rewrite Hnf, Hnt' in E. cbn [mbind result_bind] in E.
  destruct (height tpl >=? height full) eqn:Hge;
    [injection E as <-; discriminate Hx|].
  assert (Hlt : height tpl < height full).
  { destruct (Z.geb_spec (height tpl) (height full)); [discriminate|lia]. }
  apply bind_Ok in E as ([v [x y]] & Hp & E). injection E as <-.
  cbn [fst snd] in *.
  unfold cv2_match_peak in Hp.
  destruct (is_empty (map_image luminance full) || is_empty (map_image luminance tpl));
    [discriminate|].
  cbn [map_image height width] in Hp.
  destruct ((height full <? height tpl) || (width full <? width tpl)) eqn:Hsw.
  { apply orb_true_iff in Hsw as [Hsw|Hsw]; apply Z.ltb_lt in Hsw; lia. }
  injection Hp as Hp.
  assert (Hi : width (map_image luminance tpl) <= width (map_image luminance full) ->
               height (map_image luminance tpl) <= height (map_image luminance full) -> _)
    by exact (Hin (map_image luminance full) (map_image luminance tpl)).
  rewrite Hp in Hi. cbn [fst snd map_image height width] in Hi.
  apply is_empty_false in Hnt' as [Hth _].
  assert (x = 0) as -> by lia.
  exists y, (height tpl). split; [reflexivity|]. split; [reflexivity|].
  split; [reflexivity|]. split; [exact Hh|]. lia.
Qed.

(** X10: an input image that is not there (no file at the path, or a URL
    that cannot be fetched) makes [analyze_capture_requirements] end in an
    exception: the size is read first, and that read raises.  For a path
    with no file [detect_header_visible] on its own returns true, the
    default to a viewport capture; the analysis never gets that far. *)
Theorem analyze_missing_image_raises
    (url : string) (fp : option string) (w : world) :
  served w url = None ->
  returned (analyze_capture_requirements url fp w) = None /\
  (String.prefix "http" url = false ->
   returned (detect_header_visible url 50 w) = Some true).
Proof.
  intros Hs. split.
  - unfold analyze_capture_requirements.
    assert (Hr : exists e, get_image_dimensions url w = Raise e).
    { rewrite get_image_dimensions_resolve. unfold resolve.
      unfold served in Hs. destruct (String.prefix "http" url).
      - rewrite Hs. eauto.
      - rewrite Hs. cbn. eauto. }
    destruct Hr as [e Hr]. erewrite Py_bind_raise by exact Hr. reflexivity.
  - intros Hp. rewrite detect_header_visible_resolve. unfold resolve.
    unfold served in Hs. rewrite Hp in *. rewrite Hs. reflexivity.
Qed.

(** X11: with an image that shows no header and a full-page path that does
    not decode, [analyze_capture_requirements] raises nothing and reports no
    error: it returns [scroll_match] with [scroll_y] 0 and
    [match_confidence] 0. *)
Theorem analyze_unreadable_full_page
    (url p : string) (w : world) (img : image bgr) :
  served w url ≫= decode = Some img ->
  header_test img = false ->
  p <> "" ->
  files (fetched "/tmp/feedbucket_detect.jpg"
           (fetched "/tmp/feedbucket_check.jpg" w url) url) !! p ≫= decode = None ->
  returned (analyze_capture_requirements url (Some p) w) =
  Some [ ("viewport_width", VInt (width img));
         ("viewport_height", VInt (height img));
         ("capture_type", VStr "scroll_match");
         ("header_visible", VBool false);
         ("scroll_y", VInt 0);
         ("match_confidence", VInt 0) ].
Proof.
  intros Hs Hhead Hp Hfull.
  assert (Hfetch : fetchable w url = true) by (eapply served_fetchable; exact Hs).
  unfold analyze_capture_requirements.
  erewrite Py_bind_eq.
  2:{ rewrite get_image_dimensions_resolve, resolve_served by exact Hfetch.
      rewrite Hs. reflexivity. }
  erewrite Py_bind_eq.
  2:{ rewrite detect_header_visible_resolve.
      rewrite resolve_served by (rewrite fetchable_fetched; exact Hfetch).
      rewrite served_fetched, Hs. cbn [header_of].
      rewrite header_heuristic_eq by (eapply read_nonempty; exact Hs).
      rewrite Hhead. reflexivity. }
  rewrite !Py_bind_lift. cbn [dict_item dict_get String.eqb Ascii.eqb Bool.eqb].
  unfold str_truthy.
  rewrite (proj2 (String.eqb_neq p "") Hp). cbn [negb andb].
  rewrite Py_bind_lift.
  erewrite Py_bind_eq.
  2:{ rewrite find_scroll_position_resolve.
      rewrite resolve_served by (rewrite !fetchable_fetched; exact Hfetch).
      change (default "" (Some p)) with p. rewrite Hfull. reflexivity. }
  reflexivity.
Qed.

(** X13: what a run of [analyze_capture_requirements] leaves on disk.  For
    a local path nothing is written.  For a URL the image is downloaded
    again by every step: afterwards the temporary files of the size check
    and of the header check both hold it, and so does the template's
    temporary file when the scroll position was looked for. *)
Theorem analyze_downloads
    (url : string) (fp : option string) (w w' : world) (r : dict) :
  analyze_capture_requirements url fp w = Ok (r, w') ->
  (String.prefix "http" url = false -> w' = w) /\
  (String.prefix "http" url = true ->
   exists f,
     remote w !! url = Some f /\
     files w' !! "/tmp/feedbucket_check.jpg" = Some f /\
     files w' !! "/tmp/feedbucket_detect.jpg" = Some f /\
     (dict_has r "scroll_y" = true ->
      files w' !! "/tmp/feedbucket_template.jpg" = Some f)).
Proof.
  unfold analyze_capture_requirements. intros E.
  apply Py_bind_Ok in E as (dims & w1 & Hd & E).
  apply Py_bind_Ok in E as (hv & w2 & Hh & E).
  rewrite get_image_dimensions_resolve in Hd. apply resolve_Ok in Hd as (Hf1 & _ & ->).
  rewrite detect_header_visible_resolve in Hh. apply resolve_Ok in Hh as (Hf2 & _ & ->).
  apply Py_bind_Ok in E as (dw & w3 & Hdw & E). apply lift_Ok in Hdw as [_ ->].
  apply Py_bind_Ok in E as (dh & w4 & Hdh & E). apply lift_Ok in Hdh as [_ ->].
  assert (Hend : (w' = fetched "/tmp/feedbucket_detect.jpg"
                         (fetched "/tmp/feedbucket_check.jpg" w url) url /\
                  dict_has r "scroll_y" = false) \/
                 w' = fetched "/tmp/feedbucket_template.jpg"
                        (fetched "/tmp/feedbucket_detect.jpg"
                           (fetched "/tmp/feedbucket_check.jpg" w url) url) url).
  { destruct (negb hv && str_truthy fp).
    - right. apply Py_bind_Ok in E as (info & w5 & Hinfo & E).
      rewrite find_scroll_position_resolve in Hinfo.
      apply resolve_Ok in Hinfo as (_ & _ & ->).
      apply Py_bind_Ok in E as (sy & w6 & Hsy & E). apply lift_Ok in Hsy as [_ ->].
      apply Py_bind_Ok in E as (mc & w7 & Hmc & E). apply lift_Ok in Hmc as [_ ->].
      injection E as _ <-. reflexivity.
    - left. destruct (negb hv); injection E as <- <-; split; reflexivity. }
  split.
  - intros Hp. rewrite !fetched_local in Hend by exact Hp.
    destruct Hend as [[-> _]| ->]; reflexivity.
  - intros Hp. unfold fetchable in Hf1. rewrite Hp in Hf1.
    destruct (remote w !! url) as [f|] eqn:Hr; [|discriminate].
    exists f. split; [reflexivity|].
    rewrite (fetched_url "/tmp/feedbucket_check.jpg" w url f Hp Hr) in Hend.
    rewrite (fetched_url "/tmp/feedbucket_detect.jpg"
               (write_file "/tmp/feedbucket_check.jpg" f w) url f Hp Hr) in Hend.
    rewrite (fetched_url "/tmp/feedbucket_template.jpg"
               (write_file "/tmp/feedbucket_detect.jpg" f
                  (write_file "/tmp/feedbucket_check.jpg" f w)) url f Hp Hr) in Hend.
    destruct Hend as [[-> Hno]| ->]; unfold write_file; cbn [files remote].
    + rewrite Hno. split; [|split; [|discriminate]].
      * rewrite lookup_insert_ne by discriminate. apply lookup_insert_eq.
      * apply lookup_insert_eq.
    + split; [|split; [|intros _; apply lookup_insert_eq]].
      * rewrite !lookup_insert_ne by discriminate. apply lookup_insert_eq.
      * rewrite lookup_insert_ne by discriminate. apply lookup_insert_eq.
Qed.

End SmartCaptureRuns.

(** * The command line of match-screenshot.py *)

Section Main.
Context `{OpenCV} `{Formatting}.
Import MatchScreenshot.

(** X14: what [main] prints without [--json] when the run does not raise:
    one line "Error: Could not load ... image: <path>" when the full page
    or (next) the template does not decode, and otherwise the two lines
    "Match found with ... confidence" and "Output saved to: <output>", also
    when the record carries [fallback].  "Unknown error" is never printed. *)
Theorem main_text_output (a : args) (w w' : world) (lines : list string) :
  main a w = Ok (lines, w') ->
  arg_json a = false ->
  match files w !! arg_full_page a ≫= decode, served w (arg_template a) ≫= decode with
  | None, _ =>
      lines = [ String.append "Error: "
                  (String.append "Could not load full page image: " (arg_full_page a)) ]
  | Some _, None =>
      lines = [ String.append "Error: "
                  (String.append "Could not load template image: " (arg_template a)) ]
  | Some _, Some _ =>
      exists r c,
        match_template (arg_full_page a) (arg_template a) (arg_output a)
          (arg_viewport_width a) (arg_viewport_height a) w = Ok (r, w') /\
        dict_get r "confidence" = Some c /\
        lines = [ String.append "Match found with "
                    (String.append (format_2f c) " confidence");
                  String.append "Output saved to: " (arg_output a) ]
  end.
Proof.
  unfold main. intros E Hj. rewrite Hj in E.
  apply Py_bind_Ok in E as (r & w1 & Hr & E).
  destruct (match_template_cases _ _ _ _ _ _ _ _ Hr)
    as [[Hf ->]|[[Ht ->]|(full & template & Hf & Ht)]].
  - rewrite Hf. injection E as <- _. reflexivity.
  - destruct (files w !! arg_full_page a ≫= decode) as [full|] eqn:Hf.
    + rewrite Ht. injection E as <- _. reflexivity.
    + injection E as <- _.
      unfold match_template in Hr.
      erewrite Py_bind_eq in Hr by (rewrite cv2_imread_eq, Hf; reflexivity).
      apply Py_bind_Ok in Hr as (o & w2 & _ & Hr). injection Hr as Hr _.
      discriminate Hr.
  - rewrite Hf, Ht.
    destruct (match_template_run _ _ _ _ _ _ _ _ _ _ Hf Ht Hr)
      as (page & st & _ & _ & _ & [(_ & -> & _)|(_ & Hx)]).
    + cbn in E. injection E as <- <-.
      eexists _, _. split; [exact Hr|]. split; reflexivity.
    + unfold extract_region, shape in Hx.
      apply Py_bind_Ok in Hx as ([x y] & w2 & _ & Hx).
      apply Py_bind_Ok in Hx as (mw & w3 & _ & Hx).
      apply Py_bind_Ok in Hx as (mh & w4 & _ & Hx).
      apply Py_bind_Ok in Hx as (img & w5 & _ & Hx).
      apply Py_bind_Ok in Hx as (u & w6 & _ & Hx).
      injection Hx as <- _. cbn in E. injection E as <- <-.
      eexists _, _. split; [exact Hr|]. split; reflexivity.
Qed.

End Main.

(** * What the runs leave behind, and one more edge *)

Section Effects.
Context `{OpenCV}.

(** X15: a run of [match_template] that returns changes no file other than
    the output path and the template's temporary file; and when it returns
    an [error] record it has not written the output at all. *)
Theorem match_template_writes_only_output
    (fp t out : string) (vw vh : option Z) (w w' : world) (r : dict) :
  MatchScreenshot.match_template fp t out vw vh w = Ok (r, w') ->
  (forall q, q <> out -> q <> "/tmp/feedbucket_template.jpg" ->
             files w' !! q = files w !! q) /\
  (dict_has r "error" = true ->
   w' = fetched "/tmp/feedbucket_template.jpg" w t).
Proof.
  intros E.
  assert (Hkeep : forall q, q <> "/tmp/feedbucket_template.jpg" ->
            files (fetched "/tmp/feedbucket_template.jpg" w t) !! q = files w !! q).
  { intros q Hq. unfold fetched. destruct (String.prefix "http" t); [|reflexivity].
    destruct (remote w !! t); [|reflexivity].
    unfold write_file. cbn [files]. apply lookup_insert_ne. congruence. }
  assert (Hout : forall img q, q <> out -> q <> "/tmp/feedbucket_template.jpg" ->
            files (write_file out (Picture img)
                     (fetched "/tmp/feedbucket_template.jpg" w t)) !! q = files w !! q).
  { intros img q Hq1 Hq2. unfold write_file at 1. cbn [files].
    rewrite lookup_insert_ne by congruence. apply Hkeep. exact Hq2. }
  assert (Hw : MatchScreenshot.load_image t w = resolve "/tmp/feedbucket_template.jpg" Ok t w).
  { unfold resolve. destruct (String.prefix "http" t) eqn:Hp.
    - rewrite load_image_url by exact Hp. destruct (remote w !! t); reflexivity.
    - rewrite load_image_path by exact Hp. reflexivity. }
  destruct (match_template_cases _ _ _ _ _ _ _ _ E)
    as [[Hf Hr]|[[Ht Hr]|(full & template & Hf & Ht)]].
  - unfold MatchScreenshot.match_template in E.
    erewrite Py_bind_eq in E by (rewrite cv2_imread_eq, Hf; reflexivity).
    apply Py_bind_Ok in E as (o & w1 & Hl & E). injection E as _ <-.
    rewrite Hw in Hl. apply resolve_Ok in Hl as (_ & _ & ->).
    split; [intros q _ Hq; apply Hkeep; exact Hq|reflexivity].
  - unfold MatchScreenshot.match_template in E.
    apply Py_bind_Ok in E as (o1 & w0 & Hi & E).
    rewrite cv2_imread_eq in Hi. injection Hi as <- <-.
    apply Py_bind_Ok in E as (o & w1 & Hl & E).
    rewrite Hw in Hl. apply resolve_Ok in Hl as (_ & Ho & ->).
    rewrite Ht in Ho. injection Ho as <-.
    destruct (files w !! fp ≫= decode); injection E as _ <-;
      (split; [intros q _ Hq; apply Hkeep; exact Hq|reflexivity]).
  - destruct (match_template_run _ _ _ _ _ _ _ _ _ _ Hf Ht E)
      as (page & st & _ & _ & _ & [(_ & -> & -> & _)|(_ & Hx)]).
    + split; [|discriminate].
      intros q Hq1 Hq2. destruct (can_write out); [apply Hout|apply Hkeep]; assumption.
    + apply extract_region_confidence in Hx as Hc.
      unfold MatchScreenshot.extract_region, shape in Hx.
      apply Py_bind_Ok in Hx as ([x y] & w2 & Hu & Hx). apply lift_Ok in Hu as [_ ->].
      apply Py_bind_Ok in Hx as (mw & w3 & Hu & Hx). apply lift_Ok in Hu as [_ ->].
      apply Py_bind_Ok in Hx as (mh & w4 & Hu & Hx). apply lift_Ok in Hu as [_ ->].
      apply Py_bind_Ok in Hx as (img & w5 & Hu & Hx). apply lift_Ok in Hu as [_ ->].
      apply Py_bind_Ok in Hx as (u & w6 & Hu & Hx).
      unfold cv2_imwrite in Hu. destruct (is_empty img); [discriminate|].
      destruct (has_encoder out); [|discriminate]. cbn [negb] in Hu.
      destruct (can_write out); injection Hu as _ <-; injection Hx as <- <-;
        (split; [|discriminate]); intros q Hq1 Hq2;
        [apply Hout|apply Hkeep]; assumption.
Qed.

(** X16: when the template is so flat that its height, rescaled to the
    page's width, truncates to zero, [find_scroll_position] ends in a
    [cv2.resize] error. *)
Theorem find_scroll_position_flat_template_raises
    (fp t : string) (w : world) (full template : image bgr) (nh : Z) :
  files w !! fp ≫= decode = Some full ->
  served w t ≫= decode = Some template ->
  width template <> width full ->
  (scale ← py_truediv (width full) (width template);
   py_int (Py64.mul (Py64.of_int (height template)) scale)) = Ok nh ->
  nh <= 0 ->
  SmartCapture.find_scroll_position fp t w = Raise (CvError "resize").
Proof.
  intros Hf Ht Hw Hnh Hle.
  rewrite find_scroll_position_resolve.
  rewrite resolve_served by (eapply served_fetchable; exact Ht).
  rewrite Hf, Ht. cbn [position_of].
  assert (Hl : SmartCapture.locate_template full template = Raise (CvError "resize")).
  { unfold SmartCapture.locate_template, shape.
    rewrite (proj2 (Z.eqb_neq _ _) Hw). cbn [negb].
    apply bind_Ok in Hnh as (sc & Hsc & Hnh). rewrite Hsc. cbn [mbind result_bind].
    rewrite Hnh. cbn [mbind result_bind]. unfold cv2_resize.
    rewrite (proj2 (Z.leb_le nh 0) Hle), orb_true_r. reflexivity. }
  rewrite Hl. reflexivity.
Qed.

End Effects.

(** * The further properties on the sample files *)

(** Witness of [match_template_fallback_iff]: [shot] matched in [page]. *)
Lemma match_template_fallback_iff_witness :
  exists page,
    @MatchScreenshot.scale_full_page Sample.cv Sample.page None None = Ok page /\
    (dict_has (match_record (Py64.lit 125 100) Sample.found "out.png") "fallback" = true <->
     forall s tr,
       In s MatchScreenshot.tmpl_scales ->
       @attempt Sample.cv (map_image (@luminance Sample.cv) page)
         (map_image (@luminance Sample.cv) Sample.shot)
         (width Sample.shot) (height Sample.shot) (width page) (height page) s
         = Ok (Some tr) ->
       Py64.ltb (t_val tr) (Py64.lit 3 10) = true).
Proof.
  eapply (@match_template_fallback_iff Sample.cv SampleFacts.not_nan_ok
            "page.png" "shot.png" "out.png" None None Sample.disk _
            Sample.page Sample.shot);
    [reflexivity|reflexivity|vm_compute; reflexivity].
Defined.

(** Witness of [match_template_fallback_crop]: [page] sought in [shot],
    the output a JPEG file. *)
Lemma match_template_fallback_crop_witness :
  let w' := world_after
              (@MatchScreenshot.match_template Sample.cv "shot.png" "page.png"
                 "out.jpg" None None Sample.disk) Sample.disk in
  exists page cropped,
    @MatchScreenshot.scale_full_page Sample.cv Sample.shot None None = Ok page /\
    height cropped = Z.min (height Sample.page) (height page) /\
    width cropped = Z.min (width Sample.page) (width page) /\
    (forall y x, px cropped y x = px page y x) /\
    @has_encoder Sample.cv "out.jpg" = true /\
    (@can_write Sample.cv "out.jpg" = true ->
     files w' !! "out.jpg" = Some (Picture (@stored Sample.cv "out.jpg" cropped)) /\
     height (@stored Sample.cv "out.jpg" cropped) = height cropped /\
     width (@stored Sample.cv "out.jpg" cropped) = width cropped) /\
    (@can_write Sample.cv "out.jpg" = false ->
     w' = fetched "/tmp/feedbucket_template.jpg" Sample.disk "page.png").
Proof.
  eapply (@match_template_fallback_crop Sample.cv
            "shot.png" "page.png" "out.jpg" None None Sample.disk _
            Sample.shot Sample.page
            [ ("success", VBool true); ("confidence", VInt (-1));
              ("fallback", VBool true); ("output", VStr "out.jpg") ]);
    [reflexivity|reflexivity|vm_compute; reflexivity|reflexivity].
Defined.

(** Witness of [match_template_fallback_confidence]: the same run. *)
Lemma match_template_fallback_confidence_witness :
  exists page,
    @MatchScreenshot.scale_full_page Sample.cv Sample.shot None None = Ok page /\
    let r := [ ("success", VBool true); ("confidence", VInt (-1));
               ("fallback", VBool true); ("output", VStr "out.png") ] in
    let try := @attempt Sample.cv (map_image (@luminance Sample.cv) page)
                 (map_image (@luminance Sample.cv) Sample.page)
                 (width Sample.page) (height Sample.page) (width page) (height page) in
    (dict_get r "confidence" = Some (VInt (-1)) /\
     forall s tr, In s MatchScreenshot.tmpl_scales -> try s = Ok (Some tr) ->
                  Py64.ltb (Py64.of_int (-1)) (t_val tr) = false)
    \/
    (exists s tr,
       In s MatchScreenshot.tmpl_scales /\ try s = Ok (Some tr) /\
       Py64.ltb (Py64.of_int (-1)) (t_val tr) = true /\
       (forall s' tr', In s' MatchScreenshot.tmpl_scales -> try s' = Ok (Some tr') ->
                       Py64.ltb (t_val tr) (t_val tr') = false) /\
       dict_get r "confidence" =
         Some (if Py64.is_zero (t_val tr) then VInt 0 else VFloat (t_val tr))).
Proof.
  eapply (@match_template_fallback_confidence Sample.cv SampleFacts.not_nan_ok
            "shot.png" "page.png" "out.png" None None Sample.disk _
            Sample.shot Sample.page
            [ ("success", VBool true); ("confidence", VInt (-1));
              ("fallback", VBool true); ("output", VStr "out.png") ]);
    [reflexivity|reflexivity|vm_compute; reflexivity|reflexivity].
Defined.

(** Witness of [match_template_region_inside]: [shot] matched in [page]. *)
Lemma match_template_region_inside_witness :
  exists page x y mw mh,
    @MatchScreenshot.scale_full_page Sample.cv Sample.page None None = Ok page /\
    let r := match_record (Py64.lit 125 100) Sample.found "out.png" in
    dict_get r "match_location" = Some (VDict [ ("x", VInt x); ("y", VInt y) ]) /\
    dict_get r "match_size" = Some (VDict [ ("width", VInt mw); ("height", VInt mh) ]) /\
    0 < mw < width page /\ 0 < mh < height page /\
    0 <= x /\ x + mw <= width page /\ 0 <= y /\ y + mh <= height page.
Proof.
  eapply (@match_template_region_inside Sample.cv SampleFacts.peak_ok
            "page.png" "shot.png" "out.png" None None Sample.disk _
            Sample.page Sample.shot);
    [reflexivity|reflexivity|vm_compute; reflexivity|reflexivity].
Defined.

(** Witness of [viewport_height_is_only_a_flag]. *)
Lemma viewport_height_is_only_a_flag_witness :
  @MatchScreenshot.match_template Sample.cv "page.png" "shot.png" "out.png"
    (Some 50) (Some 50) Sample.disk =
  @MatchScreenshot.match_template Sample.cv "page.png" "shot.png" "out.png"
    (Some 50) (Some 99) Sample.disk.
Proof.
  apply (@viewport_height_is_only_a_flag Sample.cv); discriminate.
Defined.

(** Witness of [negative_viewport_width_raises]. *)
Lemma negative_viewport_width_raises_witness :
  exists e,
    @MatchScreenshot.match_template Sample.cv "page.png" "shot.png" "out.png"
      (Some (-50)) (Some 50) Sample.disk = Raise e.
Proof.
  apply (@negative_viewport_width_raises Sample.cv
           "page.png" "shot.png" "out.png" (-50) 50 Sample.disk Sample.page Sample.shot);
    [reflexivity|reflexivity|reflexivity|discriminate].
Defined.

(** Witness of [one_pixel_template_raises]: a template 1 wide and 30 high. *)
Lemma one_pixel_template_raises_witness :
  @MatchScreenshot.match_template Sample.cv "page.png" "line.png" "out.png"
    None None SampleEdge.disk = Raise (CvError "resize").
Proof.
  apply (@one_pixel_template_raises Sample.cv
           "page.png" "line.png" "out.png" None None SampleEdge.disk
           Sample.page SampleEdge.line Sample.page 15);
    reflexivity.
Defined.


(** Witness of [find_scroll_position_inside]: [shot], rescaled to 100 by
    100, located in [page]. *)
Lemma find_scroll_position_inside_witness :
  exists y h,
    let r := [ ("scroll_y", VInt 0); ("confidence", VFloat (Py64.lit 60 100));
               ("match_x", VInt 0); ("template_height", VInt 100) ] in
    dict_get r "scroll_y" = Some (VInt y) /\
    dict_get r "template_height" = Some (VInt h) /\
    dict_get r "match_x" = Some (VInt 0) /\
    (if width Sample.shot =? width Sample.page then Ok h = Ok (height Sample.shot)
     else Ok h = (scale ← py_truediv (width Sample.page) (width Sample.shot);
                  py_int (Py64.mul (Py64.of_int (height Sample.shot)) scale))) /\
    0 < h < height Sample.page /\ 0 <= y /\ y + h <= height Sample.page.
Proof.
  eapply (@find_scroll_position_inside Sample.cv SampleFacts.peak_ok
            "page.png" "shot.png" Sample.disk _ Sample.page Sample.shot);
    [reflexivity|reflexivity|vm_compute; reflexivity|reflexivity].
Defined.

(** Witness of [analyze_missing_image_raises]: a path with no file. *)
Lemma analyze_missing_image_raises_witness :
  returned (@SmartCapture.analyze_capture_requirements Sample.cv "missing.png"
              (Some "page.png") Sample.disk) = None /\
  (String.prefix "http" "missing.png" = false ->
   returned (@SmartCapture.detect_header_visible Sample.cv "missing.png" 50
               Sample.disk) = Some true).
Proof.
  apply (@analyze_missing_image_raises Sample.cv). reflexivity.
Defined.

(** Witness of [analyze_unreadable_full_page]. *)
Lemma analyze_unreadable_full_page_witness :
  returned (@SmartCapture.analyze_capture_requirements Sample.cv "shot.png"
              (Some "broken.png") Sample.disk) =
  Some [ ("viewport_width", VInt (width Sample.shot));
         ("viewport_height", VInt (height Sample.shot));
         ("capture_type", VStr "scroll_match");
         ("header_visible", VBool false);
         ("scroll_y", VInt 0);
         ("match_confidence", VInt 0) ].
Proof.
  apply (@analyze_unreadable_full_page Sample.cv "shot.png" "broken.png" Sample.disk
           Sample.shot);
    [reflexivity|vm_compute; reflexivity|discriminate|reflexivity].
Defined.

(** Witness of [analyze_downloads]: the image behind a URL. *)
Lemma analyze_downloads_witness :
  let w' := world_after
              (@SmartCapture.analyze_capture_requirements Sample.cv
                 "http://host/shot.png" (Some "page.png") Sample.disk) Sample.disk in
  let r := [ ("viewport_width", VInt 40); ("viewport_height", VInt 40);
             ("capture_type", VStr "scroll_match"); ("header_visible", VBool false);
             ("scroll_y", VInt 0);
             ("match_confidence", VFloat (Py64.lit 60 100)) ] in
  (String.prefix "http" "http://host/shot.png" = false -> w' = Sample.disk) /\
  (String.prefix "http" "http://host/shot.png" = true ->
   exists f,
     remote Sample.disk !! "http://host/shot.png" = Some f /\
     files w' !! "/tmp/feedbucket_check.jpg" = Some f /\
     files w' !! "/tmp/feedbucket_detect.jpg" = Some f /\
     (dict_has r "scroll_y" = true ->
      files w' !! "/tmp/feedbucket_template.jpg" = Some f)).
Proof.
  apply (@analyze_downloads Sample.cv "http://host/shot.png" (Some "page.png")
           Sample.disk).
  vm_compute. reflexivity.
Defined.

(** Witness of [main_text_output]: the fallback is announced as a match. *)
Lemma main_text_output_witness :
  exists r c,
    @MatchScreenshot.match_template Sample.cv "shot.png" "page.png" "out.png"
      None None Sample.disk
    = Ok (r, world_after
               (@MatchScreenshot.match_template Sample.cv "shot.png" "page.png"
                  "out.png" None None Sample.disk) Sample.disk) /\
    dict_get r "confidence" = Some c /\
    [ "Match found with -1.00 confidence"; "Output saved to: out.png" ] =
    [ String.append "Match found with "
        (String.append (@format_2f SampleEdge.printer c) " confidence");
      String.append "Output saved to: " "out.png" ].
Proof.
  apply (@main_text_output Sample.cv SampleEdge.printer
           (MatchScreenshot.Args "shot.png" "page.png" "out.png" None None false)
           Sample.disk);
    [vm_compute; reflexivity|reflexivity].
Defined.

(** Witness of [match_template_writes_only_output]: a template that does
    not decode. *)
Lemma match_template_writes_only_output_witness :
  let r := [ ("error", VStr "Could not load template image: broken.png") ] in
  (forall q, q <> "out.png" -> q <> "/tmp/feedbucket_template.jpg" ->
             files Sample.disk !! q = files Sample.disk !! q) /\
  (dict_has r "error" = true ->
   Sample.disk = fetched "/tmp/feedbucket_template.jpg" Sample.disk "broken.png").
Proof.
  apply (@match_template_writes_only_output Sample.cv
           "page.png" "broken.png" "out.png" None None Sample.disk Sample.disk).
  vm_compute. reflexivity.
Defined.

(** Witness of [find_scroll_position_flat_template_raises]: a strip 1000
    wide and 1 high against a page 100 wide. *)
Lemma find_scroll_position_flat_template_raises_witness :
  @SmartCapture.find_scroll_position Sample.cv "page.png" "strip.png" SampleEdge.disk
  = Raise (CvError "resize").
Proof.
  apply (@find_scroll_position_flat_template_raises Sample.cv
           "page.png" "strip.png" SampleEdge.disk Sample.page SampleEdge.strip 0);
    [reflexivity|reflexivity|discriminate|reflexivity|discriminate].
Defined.
